(** * awsns: Route 53 records for running EC2 instances

    A shallow embedding of [main.go] (functions [valid], [runningInstances]
    and [run]) together with the properties of the reconciliation it
    performs.  Go strings are byte sequences and are modelled by [string]
    (one [ascii] per byte); SDK structures keep their pointer fields as
    [option]s; the map of removal candidates is a [gmap string Change]. *)

From Stdlib Require Import ZArith Ascii String List Lia Permutation.
From stdpp Require Import gmap strings list fin_maps.

Local Open Scope Z_scope.

(** ** Go strings *)

Module GoString.

(** The value of one byte of a string. *)
Definition byteZ (c : ascii) : Z := Z.of_N (N_of_ascii c).

(** [s[n:]] *)
Fixpoint drop (n : nat) (s : string) : string :=
  match n, s with
  | O, _ => s
  | S _, EmptyString => EmptyString
  | S n', String _ t => drop n' t
  end.

(** [s[:n]] *)
Fixpoint take (n : nat) (s : string) : string :=
  match n, s with
  | O, _ => EmptyString
  | S _, EmptyString => EmptyString
  | S n', String c t => String c (take n' t)
  end.

(** [strings.HasPrefix]:
    [len(s) >= len(prefix) && s[:len(prefix)] == prefix] *)
Definition HasPrefix (s prefix : string) : bool :=
  (String.length prefix <=? String.length s)%nat
  && String.eqb (take (String.length prefix) s) prefix.

(** [strings.HasSuffix]:
    [len(s) >= len(suffix) && s[len(s)-len(suffix):] == suffix] *)
Definition HasSuffix (s suffix : string) : bool :=
  (String.length suffix <=? String.length s)%nat
  && String.eqb (drop (String.length s - String.length suffix) s) suffix.

(** [strings.TrimSuffix] *)
Definition TrimSuffix (s suffix : string) : string :=
  if HasSuffix s suffix
  then take (String.length s - String.length suffix) s
  else s.

(** *** [for _, r := range s]

    The loop decodes one UTF-8 encoded code point per iteration; on an
    ill-formed sequence the rune is [RuneError] and the loop advances by
    one byte. *)

Definition RuneError : Z := 0xFFFD.

Definition inRange (lo hi b : Z) : bool := (lo <=? b) && (b <=? hi).

(** Continuation byte. *)
Definition isCont (b : Z) : bool := inRange 0x80 0xBF b.

(** Accepted values of the second byte, by leading byte. *)
Definition acceptSecond (b0 b1 : Z) : bool :=
  if b0 =? 0xE0 then inRange 0xA0 0xBF b1
  else if b0 =? 0xED then inRange 0x80 0x9F b1
  else if b0 =? 0xF0 then inRange 0x90 0xBF b1
  else if b0 =? 0xF4 then inRange 0x80 0x8F b1
  else isCont b1.

Definition rune2 (b0 b1 : Z) : Z :=
  Z.lor (Z.shiftl (Z.land b0 0x1F) 6) (Z.land b1 0x3F).

Definition rune3 (b0 b1 b2 : Z) : Z :=
  Z.lor (Z.lor (Z.shiftl (Z.land b0 0x0F) 12)
               (Z.shiftl (Z.land b1 0x3F) 6))
        (Z.land b2 0x3F).

Definition rune4 (b0 b1 b2 b3 : Z) : Z :=
  Z.lor (Z.lor (Z.lor (Z.shiftl (Z.land b0 0x07) 18)
                      (Z.shiftl (Z.land b1 0x3F) 12))
               (Z.shiftl (Z.land b2 0x3F) 6))
        (Z.land b3 0x3F).

(** The runes the range loop yields, in order. *)
Fixpoint runes (s : string) : list Z :=
  match s with
  | EmptyString => []
  | String c0 t =>
      let b0 := byteZ c0 in
      if b0 <? 0x80 then b0 :: runes t
      else if inRange 0xC2 0xDF b0 then
        match t with
        | String c1 t1 =>
            if isCont (byteZ c1)
            then rune2 b0 (byteZ c1) :: runes t1
            else RuneError :: runes t
        | _ => RuneError :: runes t
        end
      else if inRange 0xE0 0xEF b0 then
        match t with
        | String c1 (String c2 t2) =>
            if acceptSecond b0 (byteZ c1) && isCont (byteZ c2)
            then rune3 b0 (byteZ c1) (byteZ c2) :: runes t2
            else RuneError :: runes t
        | _ => RuneError :: runes t
        end
      else if inRange 0xF0 0xF4 b0 then
        match t with
        | String c1 (String c2 (String c3 t3)) =>
            if acceptSecond b0 (byteZ c1) && isCont (byteZ c2)
               && isCont (byteZ c3)
            then rune4 b0 (byteZ c1) (byteZ c2) (byteZ c3) :: runes t3
            else RuneError :: runes t
        | _ => RuneError :: runes t
        end
      else RuneError :: runes t
  end.

End GoString.

Import GoString.

(** ** [valid] *)

(** The loop body of [valid]: the four accepting cases of the switch, in
    order, and the [default] branch returning [false]. *)
Fixpoint valid_loop (rs : list Z) : bool :=
  match rs with
  | [] => true
  | r :: rs' =>
      if (byteZ "a" <=? r) && (r <=? byteZ "z") then valid_loop rs'
      else if (byteZ "A" <=? r) && (r <=? byteZ "Z") then valid_loop rs'
      else if (byteZ "0" <=? r) && (r <=? byteZ "9") then valid_loop rs'
      else if r =? byteZ "-" then valid_loop rs'
      else false
  end.

Definition valid (name : string) : bool :=
  if String.eqb name "" then false
  else valid_loop (runes name).

(** ** SDK structures

    Every pointer field of the SDK structures is an [option]; [None] is the
    nil pointer.  Slices of structure pointers are lists of structures. *)

Module ec2.

Module Tag.
Record t := { Key : option string; Value : option string }.
End Tag.

Module Instance.
Record t := {
  InstanceId : option string;
  InstanceLifecycle : option string;
  PublicDnsName : option string;
  PublicIpAddress : option string;
  Tags : list Tag.t
}.
End Instance.

Module Reservation.
Record t := { Instances : list Instance.t }.
End Reservation.

Module Filter.
Record t := { Name : option string; Values : list (option string) }.
End Filter.

Module DescribeInstancesInput.
Record t := { Filters : list Filter.t; NextToken : option string }.
End DescribeInstancesInput.

Module DescribeInstancesOutput.
Record t := { Reservations : list Reservation.t; NextToken : option string }.
End DescribeInstancesOutput.

End ec2.

Module route53.

Module ResourceRecord.
Record t := { Value : option string }.
End ResourceRecord.

Module ResourceRecordSet.
Record t := {
  Name : option string;
  TTL : option Z;
  Type_ : option string;
  ResourceRecords : list ResourceRecord.t
}.
End ResourceRecordSet.

Module Change.
Record t := {
  Action : option string;
  ResourceRecordSet : ResourceRecordSet.t
}.
End Change.

Module ChangeBatch.
Record t := { Changes : list Change.t; Comment : option string }.
End ChangeBatch.

Module ListResourceRecordSetsInput.
Record t := { HostedZoneId : option string }.
End ListResourceRecordSetsInput.

Module ListResourceRecordSetsOutput.
Record t := { ResourceRecordSets : list ResourceRecordSet.t }.
End ListResourceRecordSetsOutput.

Module ChangeResourceRecordSetsInput.
Record t := { HostedZoneId : option string; ChangeBatch : ChangeBatch.t }.
End ChangeResourceRecordSetsInput.

End route53.

Import ec2 route53.

(** ** Errors, panics and the outside world *)

(** An error value made by the SDK (an [awserr.Error]). *)
Module awserr.
Record Error := { Code : string; Message : string }.
End awserr.

(** An [error] is either built by [fmt.Errorf] in this program or handed
    over unchanged from the SDK. *)
Inductive error :=
| Errorf (format : string) (args : list string)
| SDKError (err : awserr.Error).

(** How a call ends: it returns a value, returns an error, or panics on a
    nil pointer dereference. *)
Inductive result (A : Type) :=
| Ok (a : A)
| Err (e : error)
| Panic.
Arguments Ok {A} a.
Arguments Err {A} e.
Arguments Panic {A}.

#[global] Instance result_bind : MBind result := fun A B k r =>
  match r with
  | Ok a => k a
  | Err e => Err e
  | Panic => Panic
  end.

(** The order in which [for name, ch := range toRemove] visits a map is
    chosen by the runtime; any enumeration of the entries can occur. *)
Record MapOrder := {
  rangeMap : gmap string Change.t -> list (string * Change.t);
  rangeMap_perm : forall m, rangeMap m ≡ₚ map_to_list m
}.

(** The collaborators of [run]: session set-up and the EC2 and Route 53
    endpoints.  A cancelled context shows up as an error of the call in
    flight. *)
Record World := {
  NewSession : option awserr.Error;
  DescribeInstances :
    DescribeInstancesInput.t -> DescribeInstancesOutput.t + awserr.Error;
  (** the pages [ListResourceRecordSetsPagesWithContext] feeds to its
      callback, and the error it returns in the end *)
  ListResourceRecordSetsPages :
    ListResourceRecordSetsInput.t ->
    list ListResourceRecordSetsOutput.t * option awserr.Error;
  ChangeResourceRecordSets :
    ChangeResourceRecordSetsInput.t -> option awserr.Error
}.

(** The pager calls [fn] on each page until [fn] returns [false]. *)
Fixpoint eachPage {S P : Type} (fn : S -> P -> bool -> S * bool)
    (pages : list P) (s : S) : S :=
  match pages with
  | [] => s
  | page :: rest =>
      let '(s', more) :=
        fn s page (match rest with [] => true | _ => false end) in
      if more then eachPage fn rest s' else s'
  end.

(** ** [runningInstances] *)

Fixpoint keepInstances (insts out : list Instance.t) : list Instance.t :=
  match insts with
  | [] => out
  | inst :: rest =>
      match Instance.InstanceLifecycle inst with
      | Some _ => keepInstances rest out (* skip spot instances *)
      | None => keepInstances rest (out ++ [inst])
      end
  end.

Fixpoint eachReservation (rs : list Reservation.t) (out : list Instance.t)
    : list Instance.t :=
  match rs with
  | [] => out
  | r :: rest => eachReservation rest (keepInstances (Reservation.Instances r) out)
  end.

Definition runningFilter : DescribeInstancesInput.t :=
  {| DescribeInstancesInput.Filters :=
       [ {| Filter.Name := Some "instance-state-name";
            Filter.Values := [Some "running"] |} ];
     DescribeInstancesInput.NextToken := None |}.

Definition runningInstances (w : World) : result (list Instance.t) :=
  match DescribeInstances w runningFilter with
  | inr err => Err (SDKError err)
  | inl resp =>
      Ok (eachReservation (DescribeInstancesOutput.Reservations resp) [])
  end.

(** ** [run] *)

(** The search for the invoking instance ([invokerID != ""]). *)
Fixpoint findInvoker (invokerID : string) (instances : list Instance.t) : bool :=
  match instances with
  | [] => false
  | inst :: rest =>
      match Instance.InstanceId inst with
      | Some id => if String.eqb id invokerID then true
                   else findInvoker invokerID rest
      | None => findInvoker invokerID rest
      end
  end.

(** The change stored in [toRemove] for a zone record. *)
Definition deleteChange (name : string) (rr : ResourceRecordSet.t) : Change.t :=
  {| Change.Action := Some "DELETE";
     Change.ResourceRecordSet :=
       {| ResourceRecordSet.Name := Some name;
          ResourceRecordSet.TTL := ResourceRecordSet.TTL rr;
          ResourceRecordSet.Type_ := ResourceRecordSet.Type_ rr;
          ResourceRecordSet.ResourceRecords :=
            ResourceRecordSet.ResourceRecords rr |} |}.

(** One iteration of the loop over [page.ResourceRecordSets]; [suffix] is
    the shadowing variable of the callback, [suffix + "."]. *)
Definition recordStep (suffix : string) (toRemove : gmap string Change.t)
    (rr : ResourceRecordSet.t) : gmap string Change.t :=
  match ResourceRecordSet.Name rr with
  | None => toRemove
  | Some rrName =>
      if String.eqb rrName suffix || negb (HasSuffix rrName suffix)
      then toRemove
      else
        match ResourceRecordSet.Type_ rr with
        | None => toRemove
        | Some rrType =>
            if negb (String.eqb rrType "A") && negb (String.eqb rrType "CNAME")
            then toRemove
            else
              let name := TrimSuffix rrName "." in
              <[name := deleteChange name rr]> toRemove
        end
  end.

(** The page callback [fn] of [run]. *)
Definition fn (suffix : string) (toRemove : gmap string Change.t)
    (page : ListResourceRecordSetsOutput.t) (lastPage : bool)
    : gmap string Change.t * bool :=
  let suffix := suffix +:+ "." in
  (fold_left (recordStep suffix)
     (ListResourceRecordSetsOutput.ResourceRecordSets page) toRemove,
   true).

(** The first "Name" tag of an instance, [""] when there is none; [*tag.Key]
    and [*tag.Value] panic on a nil pointer. *)
Fixpoint nameTag (tags : list Tag.t) : result string :=
  match tags with
  | [] => Ok ""
  | tag :: rest =>
      match Tag.Key tag with
      | None => Panic
      | Some key =>
          if String.eqb key "Name" then
            match Tag.Value tag with
            | None => Panic
            | Some value => Ok value
            end
          else nameTag rest
      end
  end.

(** The change [ch] once its type and record are filled in. *)
Definition upsertChange (name rrType target : string) : Change.t :=
  {| Change.Action := Some "UPSERT";
     Change.ResourceRecordSet :=
       {| ResourceRecordSet.Name := Some name;
          ResourceRecordSet.TTL := Some 60;
          ResourceRecordSet.Type_ := Some rrType;
          ResourceRecordSet.ResourceRecords :=
            [ {| ResourceRecord.Value := Some target |} ] |} |}.

(** One iteration of the loop over [instances]. *)
Definition instanceStep (suffix : string)
    (st : list Change.t * gmap string Change.t) (inst : Instance.t)
    : result (list Change.t * gmap string Change.t) :=
  let '(changes, toRemove) := st in
  name ← nameTag (Instance.Tags inst);
  if negb (valid name) then Ok (changes, toRemove)
  else
    let byAddress :=
      match Instance.PublicIpAddress inst with
      | Some ip =>
          if negb (String.eqb ip "")
          then Ok (changes ++ [upsertChange (name +:+ suffix) "A" ip],
                   delete (name +:+ suffix) toRemove)
          else Ok (changes, toRemove)
      | None => Ok (changes, toRemove)
      end in
    match Instance.PublicDnsName inst with
    | Some dns =>
        if negb (String.eqb dns "")
        then Ok (changes ++ [upsertChange (name +:+ suffix) "CNAME" dns],
                 delete (name +:+ suffix) toRemove)
        else byAddress
    | None => byAddress
    end.

Fixpoint eachInstance (suffix : string) (instances : list Instance.t)
    (st : list Change.t * gmap string Change.t)
    : result (list Change.t * gmap string Change.t) :=
  match instances with
  | [] => Ok st
  | inst :: rest =>
      st' ← instanceStep suffix st inst;
      eachInstance suffix rest st'
  end.

Definition ErrInvalidSuffix (suffix : string) : error :=
  Errorf "invalid suffix %q, must start with dot, like '.example.com'" [suffix].
Definition ErrEmptyZone : error := Errorf "hosted zone id cannot be empty" [].
Definition ErrNoChanges : error := Errorf "no changes to apply" [].

Definition changeInput (zoneID : string) (changes : list Change.t)
    : ChangeResourceRecordSetsInput.t :=
  {| ChangeResourceRecordSetsInput.HostedZoneId := Some zoneID;
     ChangeResourceRecordSetsInput.ChangeBatch :=
       {| ChangeBatch.Changes := changes;
          ChangeBatch.Comment :=
            Some "automated update for running instances" |} |}.

Definition listInput (zoneID : string) : ListResourceRecordSetsInput.t :=
  {| ListResourceRecordSetsInput.HostedZoneId := Some zoneID |}.

(** [run] returns how the call ended together with the mutation requests
    it sent to the zone, in order. *)
Definition run (rt : MapOrder) (w : World) (suffix zoneID invokerID : string)
    : result unit * list ChangeResourceRecordSetsInput.t :=
  if String.eqb suffix "." || negb (HasPrefix suffix ".")
  then (Err (ErrInvalidSuffix suffix), [])
  else if String.eqb zoneID "" then (Err ErrEmptyZone, [])
  else
    match NewSession w with
    | Some err => (Err (SDKError err), [])
    | None =>
    match runningInstances w with
    | Err err => (Err err, [])
    | Panic => (Panic, [])
    | Ok instances =>
        if negb (String.eqb invokerID "")
           && negb (findInvoker invokerID instances)
        then (Ok (), []) (* invoked by spot instance launch *)
        else
          let '(pages, listErr) :=
            ListResourceRecordSetsPages w (listInput zoneID) in
          let toRemove := eachPage (fn suffix) pages ∅ in
          match listErr with
          | Some err => (Err (SDKError err), [])
          | None =>
          match eachInstance suffix instances ([], toRemove) with
          | Err err => (Err err, [])
          | Panic => (Panic, [])
          | Ok (changes, toRemove) =>
              if (length changes =? 0)%nat then (Err ErrNoChanges, [])
              else
                let changes := changes ++ (rangeMap rt toRemove).*2 in
                let input := changeInput zoneID changes in
                match ChangeResourceRecordSets w input with
                | Some err => (Err (SDKError err), [input])
                | None => (Ok (), [input])
                end
          end
          end
    end
    end.


(** ** Vocabulary of the specification *)

(** The characters a label may consist of. *)
Definition labelAlphabet : string :=
  "abcdefghijklmnopqrstuvwxyzABCDEFGHIJKLMNOPQRSTUVWXYZ0123456789-".

Definition labelChar (c : ascii) : bool :=
  existsb (Ascii.eqb c) (list_ascii_of_string labelAlphabet).

(** One pass through the switch of [valid] without falling to [default]. *)
Definition acceptRune (r : Z) : bool :=
  (byteZ "a" <=? r) && (r <=? byteZ "z")
  || (byteZ "A" <=? r) && (r <=? byteZ "Z")
  || (byteZ "0" <=? r) && (r <=? byteZ "9")
  || (r =? byteZ "-").

(** The name a change applies to, and its action. *)
Definition changeName (ch : Change.t) : option string :=
  ResourceRecordSet.Name (Change.ResourceRecordSet ch).

Definition isUpsert (ch : Change.t) : Prop := Change.Action ch = Some "UPSERT"%string.
Definition isDelete (ch : Change.t) : Prop := Change.Action ch = Some "DELETE"%string.

(** The changes of a submitted request. *)
Definition batchOf (input : ChangeResourceRecordSetsInput.t) : list Change.t :=
  ChangeBatch.Changes (ChangeResourceRecordSetsInput.ChangeBatch input).

(** The instances a response lists, reservation by reservation. *)
Definition responseInstances (resp : DescribeInstancesOutput.t) : list Instance.t :=
  flat_map Reservation.Instances (DescribeInstancesOutput.Reservations resp).

(** The records a zone listing shows, page by page. *)
Definition zoneRecords (pages : list ListResourceRecordSetsOutput.t)
    : list ResourceRecordSet.t :=
  flat_map ListResourceRecordSetsOutput.ResourceRecordSets pages.

(** An instance without lifecycle class. *)
Definition noLifecycle (inst : Instance.t) : bool :=
  match Instance.InstanceLifecycle inst with
  | None => true
  | Some _ => false
  end.

(** A present, non-empty string. *)
Definition nonEmpty (p : option string) : bool :=
  match p with
  | Some s => negb (String.eqb s "")
  | None => false
  end.

(** Kind and target of the record an instance asks for: the public
    hostname first, the public address second, nothing otherwise. *)
Definition desiredRecord (inst : Instance.t) : option (string * string) :=
  match Instance.PublicDnsName inst, Instance.PublicIpAddress inst with
  | Some dns, Some ip =>
      if nonEmpty (Some dns) then Some ("CNAME"%string, dns)
      else if nonEmpty (Some ip) then Some ("A"%string, ip) else None
  | Some dns, None => if nonEmpty (Some dns) then Some ("CNAME"%string, dns) else None
  | None, Some ip => if nonEmpty (Some ip) then Some ("A"%string, ip) else None
  | None, None => None
  end.

(** The UPSERT an instance gives rise to, if any. *)
Definition upsertFor (suffix : string) (inst : Instance.t) : option Change.t :=
  match nameTag (Instance.Tags inst) with
  | Ok label =>
      if valid label then
        match desiredRecord inst with
        | Some (kind, target) => Some (upsertChange (label +:+ suffix) kind target)
        | None => None
        end
      else None
  | _ => None
  end.

(** A zone record of the managed name set: its separator-terminated name
    is the separator-terminated suffix behind a non-empty prefix, and its
    kind is A or CNAME. *)
Definition managed (suffix : string) (rr : ResourceRecordSet.t) : Prop :=
  exists prefix kind,
    prefix <> ""%string /\
    ResourceRecordSet.Name rr = Some (prefix +:+ suffix +:+ ".") /\
    ResourceRecordSet.Type_ rr = Some kind /\
    (kind = "A"%string \/ kind = "CNAME"%string).

(** [run] got as far as the loop over the instances: the configuration was
    accepted, the session and both listings succeeded and the invoking
    instance, if one was named, is in the snapshot. *)
Definition reconciles (w : World) (suffix zoneID invokerID : string)
    (instances : list Instance.t) (pages : list ListResourceRecordSetsOutput.t)
    : Prop :=
  (String.eqb suffix "." || negb (HasPrefix suffix ".")) = false /\
  String.eqb zoneID "" = false /\
  NewSession w = None /\
  runningInstances w = Ok instances /\
  (String.eqb invokerID "" || findInvoker invokerID instances) = true /\
  ListResourceRecordSetsPages w (listInput zoneID) = (pages, None).

(** What [run] does once it [reconciles]: the instance loop on the
    candidates of the zone listing, the guard, the submission. *)
Definition reconcileTail (rt : MapOrder) (w : World) (suffix zoneID : string)
    (instances : list Instance.t) (pages : list ListResourceRecordSetsOutput.t)
    : result unit * list ChangeResourceRecordSetsInput.t :=
  match eachInstance suffix instances ([], eachPage (fn suffix) pages ∅) with
  | Err err => (Err err, [])
  | Panic => (Panic, [])
  | Ok (changes, toRemove) =>
      if (length changes =? 0)%nat then (Err ErrNoChanges, [])
      else
        let input := changeInput zoneID (changes ++ (rangeMap rt toRemove).*2) in
        match ChangeResourceRecordSets w input with
        | Some err => (Err (SDKError err), [input])
        | None => (Ok (), [input])
        end
  end.

(** Every entry of a candidate map is the DELETE of a managed zone record,
    stored under that record's name without the trailing separator. *)
Definition candidatesFrom (suffix : string) (records : list ResourceRecordSet.t)
    (toRemove : gmap string Change.t) : Prop :=
  forall name ch, toRemove !! name = Some ch ->
    exists rr, In rr records /\ managed suffix rr /\
      ResourceRecordSet.Name rr = Some (name +:+ ".") /\
      ch = deleteChange name rr.

(** ** Worked inputs *)

(** The order in which the map library lists the entries. *)
Definition listOrder : MapOrder :=
  {| rangeMap := map_to_list; rangeMap_perm := fun m => reflexivity _ |}.

Definition nameIs (label : string) : Tag.t :=
  {| Tag.Key := Some "Name"%string; Tag.Value := Some label |}.

Definition instWeb : Instance.t :=
  {| Instance.InstanceId := Some "i-01"%string;
     Instance.InstanceLifecycle := None;
     Instance.PublicDnsName := None;
     Instance.PublicIpAddress := Some "5.6.7.8"%string;
     Instance.Tags := [nameIs "web"] |}.

Definition instWebDns : Instance.t :=
  {| Instance.InstanceId := Some "i-02"%string;
     Instance.InstanceLifecycle := None;
     Instance.PublicDnsName := Some "ec2-5-6-7-8.example.net"%string;
     Instance.PublicIpAddress := Some "5.6.7.8"%string;
     Instance.Tags := [nameIs "web"] |}.

Definition rrOld : ResourceRecordSet.t :=
  {| ResourceRecordSet.Name := Some "old.foo.example.com."%string;
     ResourceRecordSet.TTL := Some 300;
     ResourceRecordSet.Type_ := Some "A"%string;
     ResourceRecordSet.ResourceRecords :=
       [ {| ResourceRecord.Value := Some "1.2.3.4"%string |} ] |}.

Definition rrWeb : ResourceRecordSet.t :=
  {| ResourceRecordSet.Name := Some "web.foo.example.com."%string;
     ResourceRecordSet.TTL := Some 60;
     ResourceRecordSet.Type_ := Some "A"%string;
     ResourceRecordSet.ResourceRecords :=
       [ {| ResourceRecord.Value := Some "5.6.7.8"%string |} ] |}.

(** A world in which every call succeeds, with one page of instances and
    one page of zone records. *)
Definition worldOf (instances : list Instance.t)
    (records : list ResourceRecordSet.t) : World :=
  {| NewSession := None;
     DescribeInstances := fun _ =>
       inl {| DescribeInstancesOutput.Reservations :=
                [ {| Reservation.Instances := instances |} ];
              DescribeInstancesOutput.NextToken := None |};
     ListResourceRecordSetsPages := fun _ =>
       ([ {| ListResourceRecordSetsOutput.ResourceRecordSets := records |} ],
        None);
     ChangeResourceRecordSets := fun _ => None |}.

(** The zone holds a stale record next to the one of the running "web". *)
Definition staleWorld : World := worldOf [instWeb] [rrOld; rrWeb].

(** The instance listing comes back empty. *)
Definition emptyWorld : World := worldOf [] [rrOld; rrWeb].

(** Two running instances carry the label "web". *)
Definition twinsWorld : World := worldOf [instWeb; instWebDns] [rrOld].

(** The lifecycle rule as the specification words it: an instance is kept
    when its lifecycle class is empty or "standard". *)
Definition specKeeps (inst : Instance.t) : bool :=
  match Instance.InstanceLifecycle inst with
  | None => true
  | Some class => String.eqb class "" || String.eqb class "standard"
  end.

Definition instStandard : Instance.t :=
  {| Instance.InstanceId := Some "i-03"%string;
     Instance.InstanceLifecycle := Some "standard"%string;
     Instance.PublicDnsName := None;
     Instance.PublicIpAddress := Some "5.6.7.9"%string;
     Instance.Tags := [nameIs "app"] |}.

Definition standardWorld : World := worldOf [instStandard] [].

(** The pages of the provider's answer to a request: every further page is
    asked for with the token the previous page came with. *)
Fixpoint describePages (fuel : nat) (w : World) (input : DescribeInstancesInput.t)
    : list DescribeInstancesOutput.t :=
  match fuel with
  | O => []
  | S fuel' =>
      match DescribeInstances w input with
      | inr _ => []
      | inl resp =>
          resp ::
          match DescribeInstancesOutput.NextToken resp with
          | None => []
          | Some token =>
              describePages fuel' w
                {| DescribeInstancesInput.Filters :=
                     DescribeInstancesInput.Filters input;
                   DescribeInstancesInput.NextToken := Some token |}
          end
      end
  end.

Definition instDb : Instance.t :=
  {| Instance.InstanceId := Some "i-04"%string;
     Instance.InstanceLifecycle := None;
     Instance.PublicDnsName := None;
     Instance.PublicIpAddress := Some "5.6.7.10"%string;
     Instance.Tags := [nameIs "db"] |}.

Definition rrDb : ResourceRecordSet.t :=
  {| ResourceRecordSet.Name := Some "db.foo.example.com."%string;
     ResourceRecordSet.TTL := Some 60;
     ResourceRecordSet.Type_ := Some "A"%string;
     ResourceRecordSet.ResourceRecords :=
       [ {| ResourceRecord.Value := Some "5.6.7.10"%string |} ] |}.

(** The provider answers the instance query in two pages: "web" on the
    first, "db" on the second. *)
Definition pagedWorld : World :=
  {| NewSession := None;
     DescribeInstances := fun input =>
       match DescribeInstancesInput.NextToken input with
       | None =>
           inl {| DescribeInstancesOutput.Reservations :=
                    [ {| Reservation.Instances := [instWeb] |} ];
                  DescribeInstancesOutput.NextToken := Some "page-2"%string |}
       | Some _ =>
           inl {| DescribeInstancesOutput.Reservations :=
                    [ {| Reservation.Instances := [instDb] |} ];
                  DescribeInstancesOutput.NextToken := None |}
       end;
     ListResourceRecordSetsPages := fun _ =>
       ([ {| ListResourceRecordSetsOutput.ResourceRecordSets := [rrWeb; rrDb] |} ],
        None);
     ChangeResourceRecordSets := fun _ => None |}.

(** A tag without key behind the "Name" tag, and one in front of it. *)
Definition tagNoKey : Tag.t := {| Tag.Key := None; Tag.Value := Some "x"%string |}.

Definition instTrailing : Instance.t :=
  {| Instance.InstanceId := Some "i-05"%string;
     Instance.InstanceLifecycle := None;
     Instance.PublicDnsName := None;
     Instance.PublicIpAddress := Some "5.6.7.8"%string;
     Instance.Tags := [nameIs "web"; tagNoKey] |}.

Definition instLeading : Instance.t :=
  {| Instance.InstanceId := Some "i-06"%string;
     Instance.InstanceLifecycle := None;
     Instance.PublicDnsName := None;
     Instance.PublicIpAddress := Some "5.6.7.8"%string;
     Instance.Tags := [tagNoKey; nameIs "web"] |}.

Definition trailingWorld : World := worldOf [instTrailing] [rrWeb].
Definition leadingWorld : World := worldOf [instLeading] [rrWeb].

(** ** [main] *)

Module events.
Module CloudWatchEvent.
Record t := { Source : string; Detail : string }.
End CloudWatchEvent.
End events.

Import events.

(** The structure the handler decodes [evt.Detail] into. *)
Record det := { ID : string; State : string }.

(** The flag values [autoflags.Parse] leaves in [args]. *)
Record args := { Suffix : string; Zone : string }.

(** What the process is started with: its environment, its command line as
    the flag parser reads it, and [json.Unmarshal] on the detail structure
    (the decoded structure, or the decoder's error). *)
Record Process := {
  Getenv : string -> string;
  Parse : args;
  Unmarshal : string -> det + string
}.

(** The error a Lambda invocation ends with: the decoder's or [run]'s. *)
Inductive handlerError :=
| UnmarshalError (message : string)
| RunError (err : error).

Inductive handlerResult :=
| Handled
| Failed (err : handlerError)
| Crashed.

(** The function [main] hands to [lambda.Start]. *)
Definition handler (rt : MapOrder) (w : World) (p : Process)
    (evt : CloudWatchEvent.t)
    : handlerResult * list ChangeResourceRecordSetsInput.t :=
  if negb (String.eqb (CloudWatchEvent.Source evt) "aws.ec2")
  then (Handled, []) (* unsupported event source *)
  else
    match Unmarshal p (CloudWatchEvent.Detail evt) with
    | inr err => (Failed (UnmarshalError err), [])
    | inl det =>
        if negb (String.eqb (State det) "running")
        then (Handled, []) (* unsupported ec2 instance state *)
        else if String.eqb (ID det) "" then (Handled, []) (* empty instance id *)
        else
          match run rt w (Getenv p "SUFFIX") (Getenv p "ZONE") (ID det) with
          | (Ok _, writes) => (Handled, writes)
          | (Err err, writes) => (Failed (RunError err), writes)
          | (Panic, writes) => (Crashed, writes)
          end
    end.

(** How [main] ends: it serves Lambda invocations with the handler, returns,
    dies in [log.Fatal], or panics. *)
Inductive mainResult :=
| Serving (h : CloudWatchEvent.t ->
               handlerResult * list ChangeResourceRecordSetsInput.t)
| Returned (writes : list ChangeResourceRecordSetsInput.t)
| Fatal (err : error) (writes : list ChangeResourceRecordSetsInput.t)
| Panicked (writes : list ChangeResourceRecordSetsInput.t).

Definition main (rt : MapOrder) (w : World) (p : Process) : mainResult :=
  if negb (String.eqb (Getenv p "LAMBDA_TASK_ROOT") "")
     && negb (String.eqb (Getenv p "AWS_EXECUTION_ENV") "")
  then Serving (handler rt w p)
  else
    match run rt w (Suffix (Parse p)) (Zone (Parse p)) "" with
    | (Ok _, writes) => Returned writes
    | (Err err, writes) => Fatal err writes
    | (Panic, writes) => Panicked writes
    end.

(** ** More worked inputs *)

Definition instSpot : Instance.t :=
  {| Instance.InstanceId := Some "i-07"%string;
     Instance.InstanceLifecycle := Some "spot"%string;
     Instance.PublicDnsName := None;
     Instance.PublicIpAddress := Some "5.6.7.11"%string;
     Instance.Tags := [nameIs "batch"] |}.

(** A spot instance runs next to "web". *)
Definition spotWorld : World := worldOf [instWeb; instSpot] [rrOld; rrWeb].

Definition throttled : awserr.Error :=
  {| awserr.Code := "Throttling"; awserr.Message := "Rate exceeded" |}.

(** The zone listing breaks off with an error after its first page. *)
Definition brokenListWorld : World :=
  {| NewSession := None;
     DescribeInstances := DescribeInstances staleWorld;
     ListResourceRecordSetsPages := fun _ =>
       ([ {| ListResourceRecordSetsOutput.ResourceRecordSets := [rrOld] |} ],
        Some throttled);
     ChangeResourceRecordSets := fun _ => None |}.


(** An instance with two "Name" tags. *)
Definition instTwoNames : Instance.t :=
  {| Instance.InstanceId := Some "i-08"%string;
     Instance.InstanceLifecycle := None;
     Instance.PublicDnsName := None;
     Instance.PublicIpAddress := Some "5.6.7.8"%string;
     Instance.Tags :=
       [ {| Tag.Key := Some "Role"%string; Tag.Value := None |};
         nameIs "web"; nameIs "other" ] |}.

(** An instance whose label is no host name. *)
Definition instDotted : Instance.t :=
  {| Instance.InstanceId := Some "i-09"%string;
     Instance.InstanceLifecycle := None;
     Instance.PublicDnsName := None;
     Instance.PublicIpAddress := Some "5.6.7.12"%string;
     Instance.Tags := [nameIs "a.b"] |}.

(** A Lambda process configured for ".foo.example.com" in zone "Z1", with a
    decoder that knows the one detail document used below. *)
Definition lambdaProcess : Process :=
  {| Getenv := fun name =>
       if String.eqb name "SUFFIX" then ".foo.example.com"
       else if String.eqb name "ZONE" then "Z1"
       else if String.eqb name "LAMBDA_TASK_ROOT" then "/var/task"
       else if String.eqb name "AWS_EXECUTION_ENV" then "AWS_Lambda_go1.x"
       else "";
     Parse := {| Suffix := ""; Zone := "" |};
     Unmarshal := fun detail =>
       if String.eqb detail "web-running"
       then inl {| ID := "i-01"; State := "running" |}
       else inr "unexpected end of JSON input"%string |}.

Definition cliProcess : Process :=
  {| Getenv := fun _ => ""%string;
     Parse := {| Suffix := ".foo.example.com"; Zone := "Z1" |};
     Unmarshal := fun _ => inr "unexpected end of JSON input"%string |}.

Definition webRunning : CloudWatchEvent.t :=
  {| CloudWatchEvent.Source := "aws.ec2"; CloudWatchEvent.Detail := "web-running" |}.

(** The zone holds the record of "app", an instance of lifecycle class
    "standard", next to the one of "web". *)
Definition rrApp : ResourceRecordSet.t :=
  {| ResourceRecordSet.Name := Some "app.foo.example.com."%string;
     ResourceRecordSet.TTL := Some 60;
     ResourceRecordSet.Type_ := Some "A"%string;
     ResourceRecordSet.ResourceRecords :=
       [ {| ResourceRecord.Value := Some "5.6.7.9"%string |} ] |}.

Definition classedWorld : World := worldOf [instWeb; instStandard] [rrApp; rrWeb].

(** ** The zone as the specification describes it *)

(** The DNS zone store is not part of the program.  Its state is taken to
    be a [gmap string ResourceRecordSet.t]: one DNS record per
    fully-qualified name, the names kept without the trailing separator. *)



(** Modelled from the spec: a change the zone store understands, a tagged
    action UPSERT or DELETE plus the record it applies to. *)
Definition wellFormed (ch : Change.t) : bool :=
  match Change.Action ch, changeName ch with
  | Some action, Some _ => String.eqb action "UPSERT" || String.eqb action "DELETE"
  | _, _ => false
  end.








(** * Properties *)

(** ** Go strings *)

Section Strings.

#[local] Arguments String.append !s1 s2 : simpl nomatch.

Lemma length_append (s t : string) :
  String.length (s +:+ t) = (String.length s + String.length t)%nat.
Proof. induction s; cbn; [reflexivity|now f_equal]. Qed.

Lemma append_empty_r (s : string) : s +:+ "" = s.
Proof. induction s; cbn; [reflexivity|now f_equal]. Qed.

Lemma append_assoc (s t u : string) : (s +:+ t) +:+ u = s +:+ t +:+ u.
Proof. induction s; cbn; [reflexivity|now f_equal]. Qed.

Lemma take_drop n s : take n s +:+ drop n s = s.
Proof.
  revert s. induction n as [|n IH]; intros [|c t]; cbn; try reflexivity.
  now rewrite IH.
Qed.

Lemma take_append p s : take (String.length p) (p +:+ s) = p.
Proof. induction p; cbn; [now destruct s|now f_equal]. Qed.

Lemma drop_append p s : drop (String.length p) (p +:+ s) = s.
Proof. induction p; cbn; [reflexivity|assumption]. Qed.

Lemma drop_length n s :
  (n <= String.length s)%nat ->
  String.length (drop n s) = (String.length s - n)%nat.
Proof.
  revert s. induction n as [|n IH]; intros [|c t]; cbn; intros; try lia.
  apply IH. lia.
Qed.

(** Cancellation of a common tail. *)
Lemma append_inj_r (p q s : string) : p +:+ s = q +:+ s -> p = q.
Proof.
  intros E.
  assert (L : String.length p = String.length q).
  { apply (f_equal String.length) in E. rewrite !length_append in E. lia. }
  revert q E L. induction p as [|c p IH]; intros [|d q]; cbn; intros E L;
    try discriminate; [reflexivity|].
  injection E as -> E. f_equal. apply IH; [assumption|lia].
Qed.

Lemma HasSuffix_iff s suffix :
  HasSuffix s suffix = true <-> exists p, s = p +:+ suffix.
Proof.
  unfold HasSuffix. rewrite andb_true_iff, Nat.leb_le, String.eqb_eq. split.
  - intros [_ E]. exists (take (String.length s - String.length suffix) s).
    rewrite <- (take_drop (String.length s - String.length suffix) s) at 1.
    now rewrite E.
  - intros [p ->]. rewrite length_append. split; [lia|].
    replace (String.length p + String.length suffix - String.length suffix)%nat
      with (String.length p) by lia.
    apply drop_append.
Qed.

Lemma TrimSuffix_append p suffix : TrimSuffix (p +:+ suffix) suffix = p.
Proof.
  unfold TrimSuffix.
  assert (H : HasSuffix (p +:+ suffix) suffix = true)
    by (apply HasSuffix_iff; eauto).
  rewrite H, length_append.
  replace (String.length p + String.length suffix - String.length suffix)%nat
    with (String.length p) by lia.
  apply take_append.
Qed.

End Strings.

Section BitBounds.

Lemma lor_ge_l a b : 0 <= a -> 0 <= b -> a <= Z.lor a b.
Proof.
  intros Ha Hb. rewrite Z.lor_comm.
  pose proof (Z.sub_lor_l_same_r b a) as E.
  assert (0 <= Z.land b (Z.lnot a)) by (apply Z.land_nonneg; auto).
  lia.
Qed.

Lemma lor_ge_r a b : 0 <= a -> 0 <= b -> b <= Z.lor a b.
Proof. intros. rewrite Z.lor_comm. now apply lor_ge_l. Qed.

Lemma field_nonneg b n k : 0 <= n -> 0 <= k -> 0 <= Z.shiftl (Z.land b (Z.ones n)) k.
Proof.
  intros Hn Hk. apply Z.shiftl_nonneg.
  rewrite Z.land_ones by assumption. apply Z.mod_pos_bound. lia.
Qed.

Lemma field_eq b n k :
  0 <= n -> 0 <= k -> Z.shiftl (Z.land b (Z.ones n)) k = (b mod 2 ^ n) * 2 ^ k.
Proof.
  intros Hn Hk. now rewrite Z.land_ones, Z.shiftl_mul_pow2.
Qed.

End BitBounds.

Ltac modlia := Z.div_mod_to_equations; lia.

Section Runes.

Lemma inRange_true lo hi b : inRange lo hi b = true <-> lo <= b <= hi.
Proof. unfold inRange. rewrite andb_true_iff, !Z.leb_le. tauto. Qed.

Lemma low6_nonneg b : 0 <= Z.land b 0x3F.
Proof. apply Z.land_nonneg. right. lia. Qed.

Lemma low6_field b k :
  0 <= k -> Z.shiftl (Z.land b 0x3F) k = (b mod 64) * 2 ^ k.
Proof. intros. change 0x3F with (Z.ones 6). now rewrite field_eq. Qed.

Lemma rune2_high b0 b1 : inRange 0xC2 0xDF b0 = true -> 128 <= rune2 b0 b1.
Proof.
  rewrite inRange_true. intros Hb. unfold rune2.
  change 0x1F with (Z.ones 5).
  set (A := Z.shiftl (Z.land b0 (Z.ones 5)) 6).
  assert (HA : 0 <= A) by (apply field_nonneg; lia).
  pose proof (lor_ge_l A (Z.land b1 0x3F) HA (low6_nonneg b1)).
  assert (HA' : A = (b0 mod 32) * 64) by (subst A; rewrite field_eq by lia; reflexivity).
  assert (2 <= b0 mod 32) by modlia.
  lia.
Qed.

Lemma rune3_high b0 b1 b2 :
  inRange 0xE0 0xEF b0 = true -> acceptSecond b0 b1 = true ->
  128 <= rune3 b0 b1 b2.
Proof.
  rewrite inRange_true. intros Hb Hs. unfold rune3.
  change 0x0F with (Z.ones 4).
  set (A := Z.shiftl (Z.land b0 (Z.ones 4)) 12).
  set (B := Z.shiftl (Z.land b1 0x3F) 6).
  assert (HA : 0 <= A) by (apply field_nonneg; lia).
  assert (HB : 0 <= B) by (apply Z.shiftl_nonneg, low6_nonneg).
  pose proof (lor_ge_l A B HA HB). pose proof (lor_ge_r A B HA HB).
  assert (0 <= Z.lor A B) by lia.
  pose proof (lor_ge_l (Z.lor A B) (Z.land b2 0x3F) ltac:(lia) (low6_nonneg b2)).
  assert (HA' : A = (b0 mod 16) * 4096) by (subst A; rewrite field_eq by lia; reflexivity).
  assert (HB' : B = (b1 mod 64) * 64) by (subst B; rewrite low6_field by lia; reflexivity).
  unfold acceptSecond in Hs.
  destruct (Z.eqb_spec b0 0xE0) as [->|Hne].
  - apply inRange_true in Hs. modlia.
  - assert (1 <= b0 mod 16) by modlia. modlia.
Qed.

Lemma rune4_high b0 b1 b2 b3 :
  inRange 0xF0 0xF4 b0 = true -> acceptSecond b0 b1 = true ->
  128 <= rune4 b0 b1 b2 b3.
Proof.
  rewrite inRange_true. intros Hb Hs. unfold rune4.
  change 0x07 with (Z.ones 3).
  set (A := Z.shiftl (Z.land b0 (Z.ones 3)) 18).
  set (B := Z.shiftl (Z.land b1 0x3F) 12).
  set (C := Z.shiftl (Z.land b2 0x3F) 6).
  assert (HA : 0 <= A) by (apply field_nonneg; lia).
  assert (HB : 0 <= B) by (apply Z.shiftl_nonneg, low6_nonneg).
  assert (HC : 0 <= C) by (apply Z.shiftl_nonneg, low6_nonneg).
  pose proof (lor_ge_l A B HA HB). pose proof (lor_ge_r A B HA HB).
  pose proof (lor_ge_l (Z.lor A B) C ltac:(lia) HC).
  pose proof (lor_ge_l (Z.lor (Z.lor A B) C) (Z.land b3 0x3F) ltac:(lia)
                (low6_nonneg b3)).
  assert (HA' : A = (b0 mod 8) * 262144) by (subst A; rewrite field_eq by lia; reflexivity).
  assert (HB' : B = (b1 mod 64) * 4096) by (subst B; rewrite low6_field by lia; reflexivity).
  unfold acceptSecond in Hs.
  destruct (Z.eqb_spec b0 0xE0) as [->|_]; [lia|].
  destruct (Z.eqb_spec b0 0xED) as [->|_]; [lia|].
  destruct (Z.eqb_spec b0 0xF0) as [->|Hne].
  - apply inRange_true in Hs. modlia.
  - assert (1 <= b0 mod 8) by modlia. modlia.
Qed.

(** A byte outside ASCII starts an iteration whose rune is outside ASCII. *)
Lemma runes_high c t :
  (byteZ c <? 0x80) = false ->
  exists r rs, runes (String c t) = r :: rs /\ 128 <= r.
Proof.
  intros Hc. cbn [runes]. cbv zeta. rewrite Hc.
  assert (HE : 128 <= RuneError) by (unfold RuneError; lia).
  destruct (inRange 0xC2 0xDF (byteZ c)) eqn:H2.
  { destruct t as [|c1 t1]; [eauto|].
    destruct (isCont (byteZ c1)); eauto using rune2_high. }
  destruct (inRange 0xE0 0xEF (byteZ c)) eqn:H3.
  { destruct t as [|c1 [|c2 t2]]; [eauto..|].
    destruct (acceptSecond (byteZ c) (byteZ c1)) eqn:Hs; cbn [andb]; [|eauto].
    destruct (isCont (byteZ c2)); eauto using rune3_high. }
  destruct (inRange 0xF0 0xF4 (byteZ c)) eqn:H4.
  { destruct t as [|c1 [|c2 [|c3 t3]]]; [eauto..|].
    destruct (acceptSecond (byteZ c) (byteZ c1)) eqn:Hs; cbn [andb]; [|eauto].
    destruct (isCont (byteZ c2)); cbn [andb]; [|eauto].
    destruct (isCont (byteZ c3)); eauto using rune4_high. }
  eauto.
Qed.

Lemma runes_ascii c t :
  (byteZ c <? 0x80) = true -> runes (String c t) = byteZ c :: runes t.
Proof. intros Hc. cbn [runes]. cbv zeta. now rewrite Hc. Qed.

End Runes.

(** ** The name validator *)

Section Valid.

Lemma valid_loop_cons r rs :
  valid_loop (r :: rs) = acceptRune r && valid_loop rs.
Proof.
  cbn [valid_loop]. unfold acceptRune.
  destruct ((byteZ "a" <=? r) && (r <=? byteZ "z")); [reflexivity|].
  destruct ((byteZ "A" <=? r) && (r <=? byteZ "Z")); [reflexivity|].
  destruct ((byteZ "0" <=? r) && (r <=? byteZ "9")); [reflexivity|].
  destruct (r =? byteZ "-"); reflexivity.
Qed.

Lemma acceptRune_ascii r : acceptRune r = true -> r < 128.
Proof.
  unfold acceptRune, byteZ. cbn.
  rewrite !orb_true_iff, !andb_true_iff, !Z.leb_le, Z.eqb_eq. lia.
Qed.

(** On a single byte the switch accepts exactly the label alphabet. *)
Lemma acceptRune_byte c :
  acceptRune (byteZ c) = (byteZ c <? 0x80) && labelChar c.
Proof. destruct c as [[] [] [] [] [] [] [] []]; reflexivity. Qed.

Lemma labelChar_ascii c : labelChar c = true -> (byteZ c <? 0x80) = true.
Proof. destruct c as [[] [] [] [] [] [] [] []]; cbv; congruence. Qed.

Lemma valid_loop_runes s :
  valid_loop (runes s) = forallb labelChar (list_ascii_of_string s).
Proof.
  induction s as [|c t IH]; [reflexivity|].
  cbn [list_ascii_of_string forallb].
  destruct (byteZ c <? 0x80) eqn:Hc.
  - rewrite runes_ascii, valid_loop_cons, acceptRune_byte, Hc, IH by assumption.
    reflexivity.
  - destruct (runes_high c t Hc) as (r & rs & -> & Hr).
    rewrite valid_loop_cons.
    destruct (acceptRune r) eqn:Ha.
    + apply acceptRune_ascii in Ha. lia.
    + destruct (labelChar c) eqn:Hl; [|reflexivity].
      apply labelChar_ascii in Hl. congruence.
Qed.

End Valid.

(** C9. [valid label] holds exactly when [label] is non-empty and each of
    its characters is an ASCII letter, an ASCII digit or a hyphen; every
    other string (empty, or with ".", "_", a space or a byte outside ASCII
    somewhere) is rejected, whatever its length. *)
Theorem C9_valid_iff (label : string) :
  valid label = true <->
  label <> ""%string /\
  Forall (fun c => labelChar c = true) (list_ascii_of_string label).
Proof.
  unfold valid. rewrite List.Forall_forall, <- List.forallb_forall.
  rewrite <- valid_loop_runes.
  destruct (String.eqb_spec label "") as [->|Hne].
  - split; [discriminate|]. intros [H _]. now elim H.
  - tauto.
Qed.

(** Some labels and what [valid] makes of them; the last one is "é" in
    UTF-8, the one before it a lone continuation byte. *)
Example valid_samples :
  valid "web-01" = true /\ valid "Jenkins" = true /\ valid "" = false /\
  valid "a.b" = false /\ valid "a_b" = false /\ valid "a b" = false /\
  valid (String "128" "a") = false /\
  valid (String "195" (String "169" "")) = false.
Proof. repeat split. Qed.

(** ** The instance snapshot *)

Section Snapshot.

Lemma keepInstances_filter insts out :
  keepInstances insts out = out ++ List.filter noLifecycle insts.
Proof.
  revert out. induction insts as [|inst rest IH]; intros out; cbn.
  - now rewrite app_nil_r.
  - unfold noLifecycle at 1.
    destruct (Instance.InstanceLifecycle inst); rewrite IH; [reflexivity|].
    now rewrite <- app_assoc.
Qed.

Lemma filter_flat_map {A B} (f : A -> list B) (p : B -> bool) (l : list A) :
  List.filter p (flat_map f l) = flat_map (fun a => List.filter p (f a)) l.
Proof.
  induction l as [|a l IH]; cbn; [reflexivity|].
  now rewrite List.filter_app, IH.
Qed.

Lemma eachReservation_filter rs out :
  eachReservation rs out =
  out ++ List.filter noLifecycle (flat_map Reservation.Instances rs).
Proof.
  revert out. induction rs as [|r rest IH]; intros out; cbn.
  - now rewrite app_nil_r.
  - now rewrite IH, keepInstances_filter, List.filter_app, app_assoc.
Qed.

Lemma runningInstances_response w resp :
  DescribeInstances w runningFilter = inl resp ->
  runningInstances w = Ok (List.filter noLifecycle (responseInstances resp)).
Proof.
  intros E. unfold runningInstances. rewrite E.
  now rewrite eachReservation_filter.
Qed.

Lemma runningInstances_inv w instances :
  runningInstances w = Ok instances ->
  exists resp, DescribeInstances w runningFilter = inl resp /\
    instances = List.filter noLifecycle (responseInstances resp).
Proof.
  unfold runningInstances.
  destruct (DescribeInstances w runningFilter) as [resp|err] eqn:E;
    [|discriminate].
  intros [= <-]. exists resp. split; [reflexivity|].
  now rewrite eachReservation_filter.
Qed.

End Snapshot.

(** ** The zone snapshot *)

Section Candidates.

Variable suffix : string.

Lemma eachPage_fold pages toRemove :
  eachPage (fn suffix) pages toRemove =
  fold_left (recordStep (suffix +:+ ".")) (zoneRecords pages) toRemove.
Proof.
  revert toRemove. induction pages as [|page rest IH]; intros m; cbn.
  - reflexivity.
  - unfold zoneRecords in *. cbn. now rewrite IH, fold_left_app.
Qed.

(** When [recordStep] stores a candidate. *)
Lemma recordStep_cases toRemove rr :
  (recordStep (suffix +:+ ".") toRemove rr = toRemove /\ ~ managed suffix rr) \/
  (exists prefix, prefix <> ""%string /\ managed suffix rr /\
     ResourceRecordSet.Name rr = Some ((prefix +:+ suffix) +:+ ".") /\
     recordStep (suffix +:+ ".") toRemove rr =
       <[prefix +:+ suffix := deleteChange (prefix +:+ suffix) rr]> toRemove).
Proof.
  unfold recordStep.
  destruct (ResourceRecordSet.Name rr) as [rrName|] eqn:EN.
  2:{ left. split; [reflexivity|]. intros (p & k & _ & H & _). congruence. }
  destruct (String.eqb_spec rrName (suffix +:+ ".")) as [->|Hne]; cbn [orb].
  { left. split; [reflexivity|]. intros (p & k & Hp & H & _).
    rewrite EN in H. injection H as H.
    apply Hp, (append_inj_r _ "" (suffix +:+ ".")). symmetry. exact H. }
  destruct (HasSuffix rrName (suffix +:+ ".")) eqn:HS; cbn [negb].
  2:{ left. split; [reflexivity|]. intros (p & k & _ & H & _).
      rewrite EN in H. injection H as ->.
      assert (HasSuffix (p +:+ suffix +:+ ".") (suffix +:+ ".") = true)
        by (apply HasSuffix_iff; eauto).
      congruence. }
  apply HasSuffix_iff in HS as [p ->].
  assert (Hp : p <> ""%string) by (intros ->; now apply Hne).
  destruct (ResourceRecordSet.Type_ rr) as [rrType|] eqn:ET.
  2:{ left. split; [reflexivity|]. intros (_ & k & _ & _ & H & _). congruence. }
  assert (Hstore : forall kind, ResourceRecordSet.Type_ rr = Some kind ->
            kind = "A"%string \/ kind = "CNAME"%string ->
            exists prefix, prefix <> ""%string /\ managed suffix rr /\
              Some (p +:+ suffix +:+ ".") = Some ((prefix +:+ suffix) +:+ ".") /\
              (let name := TrimSuffix (p +:+ suffix +:+ ".") "." in
               <[name := deleteChange name rr]> toRemove) =
              <[prefix +:+ suffix := deleteChange (prefix +:+ suffix) rr]> toRemove).
  { intros kind Hk Hkind. exists p. cbv zeta.
    rewrite <- (append_assoc p suffix "."), TrimSuffix_append.
    split; [assumption|]. split; [|split; [|reflexivity]].
    - exists p, kind. auto.
    - now rewrite append_assoc. }
  destruct (String.eqb_spec rrType "A") as [->|HA]; cbn [negb andb].
  { right. apply (Hstore "A"%string); auto. }
  destruct (String.eqb_spec rrType "CNAME") as [->|HC]; cbn [negb].
  { right. apply (Hstore "CNAME"%string); auto. }
  left. split; [reflexivity|]. intros (_ & k & _ & _ & H & [?|?]); congruence.
Qed.

Lemma candidatesFrom_mono records records' m :
  candidatesFrom suffix records m -> incl records records' ->
  candidatesFrom suffix records' m.
Proof.
  intros H Hi name ch Hm. destruct (H name ch Hm) as (rr & ? & ?).
  exists rr. split; [now apply Hi|assumption].
Qed.

Lemma fold_recordStep_candidates records seen m :
  candidatesFrom suffix seen m ->
  candidatesFrom suffix (seen ++ records)
    (fold_left (recordStep (suffix +:+ ".")) records m).
Proof.
  revert seen m. induction records as [|rr rest IH]; intros seen m Hm; cbn.
  - now rewrite app_nil_r.
  - replace (seen ++ rr :: rest) with ((seen ++ [rr]) ++ rest)
      by now rewrite <- app_assoc.
    apply IH.
    destruct (recordStep_cases m rr) as [[-> _]|(p & Hp & Hman & HN & ->)].
    + eapply candidatesFrom_mono; [eassumption|]. now apply incl_appl.
    + intros name ch. rewrite lookup_insert. case_decide as Hk.
      * intros [= <-]. subst name. exists rr.
        split; [apply in_or_app; right; now left|]. now repeat split.
      * intros Hl. destruct (Hm name ch Hl) as (rr' & ? & ?).
        exists rr'. split; [apply in_or_app; now left|assumption].
Qed.

Lemma eachPage_candidates pages :
  candidatesFrom suffix (zoneRecords pages) (eachPage (fn suffix) pages ∅).
Proof.
  rewrite eachPage_fold.
  apply (fold_recordStep_candidates (zoneRecords pages) [] ∅).
  intros name ch H. now rewrite lookup_empty in H.
Qed.

Lemma fold_recordStep_dom records m name :
  is_Some (fold_left (recordStep (suffix +:+ ".")) records m !! name) <->
  is_Some (m !! name) \/
  exists rr, In rr records /\ managed suffix rr /\
    ResourceRecordSet.Name rr = Some (name +:+ ".").
Proof.
  revert m. induction records as [|rr rest IH]; intros m; cbn.
  - split; [now left|]. intros [H|(rr & [] & _)]. exact H.
  - rewrite IH. clear IH.
    destruct (recordStep_cases m rr) as [[-> Hn]|(p & Hp & Hman & HN & ->)].
    + split; (intros [H|(rr' & Hin & Hm & Hname)]; [now left|right]).
      * exists rr'. auto.
      * destruct Hin as [<-|Hin]; [contradiction|]. exists rr'. auto.
    + rewrite lookup_insert_is_Some'. split.
      * intros [[<-|H]|(rr' & Hin & Hm & Hname)]; [right|now left|right].
        -- exists rr. auto.
        -- exists rr'. auto.
      * intros [H|(rr' & [<-|Hin] & Hm & Hname)]; [now left; right| |right].
        -- left; left. rewrite HN in Hname. injection Hname as Hname.
           now apply append_inj_r in Hname.
        -- exists rr'. auto.
Qed.

(** The candidate map holds exactly the managed records of the listing. *)
Lemma eachPage_dom pages name :
  is_Some (eachPage (fn suffix) pages ∅ !! name) <->
  exists rr, In rr (zoneRecords pages) /\ managed suffix rr /\
    ResourceRecordSet.Name rr = Some (name +:+ ".").
Proof.
  rewrite eachPage_fold, fold_recordStep_dom, lookup_empty.
  split; [intros [[? [=]]|H]; exact H|now right].
Qed.

End Candidates.

(** ** The loop over the instances *)

Section Instances.

Variable suffix : string.

Lemma changeName_upsert name kind target :
  changeName (upsertChange name kind target) = Some name.
Proof. reflexivity. Qed.

Lemma isUpsert_upsert name kind target : isUpsert (upsertChange name kind target).
Proof. reflexivity. Qed.

(** One iteration appends the instance's UPSERT and drops the candidate of
    the same name, or leaves the state alone. *)
Lemma instanceStep_spec changes toRemove inst :
  instanceStep suffix (changes, toRemove) inst =
  match nameTag (Instance.Tags inst) with
  | Ok label =>
      Ok match upsertFor suffix inst with
         | Some ch => (changes ++ [ch], delete (label +:+ suffix) toRemove)
         | None => (changes, toRemove)
         end
  | Err err => Err err
  | Panic => Panic
  end.
Proof.
  unfold instanceStep, upsertFor, desiredRecord, nonEmpty, mbind, result_bind.
  destruct (nameTag (Instance.Tags inst)) as [label| |]; try reflexivity.
  destruct (valid label); cbn [negb]; [|reflexivity].
  destruct (Instance.PublicDnsName inst) as [dns|],
    (Instance.PublicIpAddress inst) as [ip|];
    repeat match goal with
           | |- context [String.eqb ?a ?b] => destruct (String.eqb a b)
           end; reflexivity.
Qed.

Lemma upsertFor_name inst ch :
  upsertFor suffix inst = Some ch ->
  exists label kind target,
    nameTag (Instance.Tags inst) = Ok label /\ valid label = true /\
    desiredRecord inst = Some (kind, target) /\
    ch = upsertChange (label +:+ suffix) kind target.
Proof.
  unfold upsertFor.
  destruct (nameTag (Instance.Tags inst)) as [label| |]; try discriminate.
  destruct (valid label) eqn:Hv; [|discriminate].
  destruct (desiredRecord inst) as [[kind target]|]; [|discriminate].
  intros [= <-]. eauto 8.
Qed.

Lemma eachInstance_spec instances changes toRemove changes' toRemove' :
  eachInstance suffix instances (changes, toRemove) = Ok (changes', toRemove') ->
  changes' = changes ++ omap (upsertFor suffix) instances /\
  forall name,
    toRemove' !! name =
    if decide (Some name ∈ changeName <$> omap (upsertFor suffix) instances)
    then None else toRemove !! name.
Proof.
  revert changes toRemove.
  induction instances as [|inst rest IH]; intros changes toRemove;
    cbn [eachInstance omap list_omap].
  - intros [= <- <-]. rewrite app_nil_r. split; [reflexivity|].
    intros name. case_decide as H; [|reflexivity]. now apply elem_of_nil in H.
  - rewrite instanceStep_spec. unfold mbind, result_bind.
    destruct (nameTag (Instance.Tags inst)) as [label| |] eqn:EN;
      try discriminate.
    destruct (upsertFor suffix inst) as [ch|] eqn:EU.
    + intros H. apply IH in H as [-> Hm].
      split; [now rewrite <- app_assoc|].
      intros name. rewrite Hm. cbn [fmap list_fmap].
      apply upsertFor_name in EU as (l & k & t & EN' & _ & _ & ->).
      rewrite EN in EN'. injection EN' as <-. rewrite changeName_upsert.
      destruct (decide (name = label +:+ suffix)) as [->|Hne].
      * rewrite lookup_delete_eq.
        repeat case_decide; try reflexivity.
        all: exfalso; match goal with H : ~ _ |- _ => apply H; left end.
      * rewrite lookup_delete_ne by congruence.
        apply decide_ext. rewrite elem_of_cons. split; [auto|].
        intros [[= ?]|?]; [contradiction|assumption].
    + apply IH.
Qed.

(** The loop never returns an error; it panics exactly when reading the
    "Name" tag of some instance does. *)
Lemma eachInstance_Panic instances st :
  eachInstance suffix instances st = Panic <->
  exists inst, In inst instances /\ nameTag (Instance.Tags inst) = Panic.
Proof.
  revert st. induction instances as [|inst rest IH]; intros [changes toRemove];
    cbn [eachInstance In].
  - split; [discriminate|]. now intros (? & [] & _).
  - rewrite instanceStep_spec. unfold mbind, result_bind.
    destruct (nameTag (Instance.Tags inst)) as [label|e|] eqn:EN.
    + rewrite IH. split; intros (i & Hi & Hp); exists i.
      * auto.
      * destruct Hi as [<-|Hi]; [congruence|auto].
    + exfalso. clear -EN. induction (Instance.Tags inst) as [|tag tags IHt];
        cbn in EN; [discriminate|].
      destruct (Tag.Key tag); [|discriminate].
      destruct (String.eqb _ _); [|auto].
      destruct (Tag.Value tag); discriminate.
    + split; [eauto|reflexivity].
Qed.

Lemma eachInstance_total instances st :
  (exists st', eachInstance suffix instances st = Ok st') \/
  eachInstance suffix instances st = Panic.
Proof.
  revert st. induction instances as [|inst rest IH]; intros [changes toRemove];
    cbn [eachInstance].
  - eauto.
  - rewrite instanceStep_spec. unfold mbind, result_bind.
    destruct (nameTag (Instance.Tags inst)) as [label|e|] eqn:EN; [apply IH| |now right].
    exfalso. clear -EN. induction (Instance.Tags inst) as [|tag tags IHt];
      cbn in EN; [discriminate|].
    destruct (Tag.Key tag); [|discriminate].
    destruct (String.eqb _ _); [|auto].
    destruct (Tag.Value tag); discriminate.
Qed.

End Instances.

(** ** The shape of a run *)

Section Run.

Variables (rt : MapOrder) (w : World) (suffix zoneID invokerID : string).

Lemma run_reconciles instances pages :
  reconciles w suffix zoneID invokerID instances pages ->
  run rt w suffix zoneID invokerID =
  reconcileTail rt w suffix zoneID instances pages.
Proof.
  intros (Hcfg & Hzone & Hsess & Hinst & Hinv & Hlist).
  unfold run, reconcileTail.
  rewrite Hcfg, Hzone, Hsess, Hinst, Hlist.
  rewrite <- negb_orb, Hinv. reflexivity.
Qed.

(** Short of reconciling, [run] returns without panic and without having
    written to the zone. *)
Lemma run_cases :
  (exists instances pages, reconciles w suffix zoneID invokerID instances pages) \/
  (exists r, run rt w suffix zoneID invokerID = (r, []) /\ r <> Panic).
Proof.
  unfold reconciles, run.
  destruct (String.eqb suffix "." || negb (HasPrefix suffix ".")) eqn:Hcfg;
    [right; eauto|].
  destruct (String.eqb zoneID "") eqn:Hzone; [right; eauto|].
  destruct (NewSession w) as [err|] eqn:Hsess; [right; eauto|].
  destruct (runningInstances w) as [instances|err|] eqn:Hinst.
  - rewrite <- negb_orb.
    destruct (String.eqb invokerID "" || findInvoker invokerID instances)
      eqn:Hinv; cbn [negb]; [|right; eauto].
    destruct (ListResourceRecordSetsPages w (listInput zoneID))
      as [pages [err|]] eqn:Hlist; [right; eauto|].
    left. exists instances, pages. auto 10.
  - right; eauto.
  - unfold runningInstances in Hinst.
    destruct (DescribeInstances w runningFilter); discriminate.
Qed.

Lemma reconcileTail_submitted instances pages input :
  In input (reconcileTail rt w suffix zoneID instances pages).2 ->
  exists changes toRemove,
    eachInstance suffix instances ([], eachPage (fn suffix) pages ∅)
      = Ok (changes, toRemove) /\
    changes <> [] /\
    input = changeInput zoneID (changes ++ (rangeMap rt toRemove).*2) /\
    (reconcileTail rt w suffix zoneID instances pages).2 = [input].
Proof.
  unfold reconcileTail.
  destruct (eachInstance suffix instances _) as [[changes toRemove]|err|];
    try (intros []).
  destruct changes as [|ch changes]; [intros []|]. cbn [length Nat.eqb].
  cbv zeta.
  destruct (ChangeResourceRecordSets w _);
    (intros [<-|[]]; eexists _, _; repeat split; discriminate).
Qed.

(** Whatever [run] sent to the zone is the one batch made of the loop's
    changes followed by the candidates the loop left over. *)
Lemma run_submitted input :
  In input (run rt w suffix zoneID invokerID).2 ->
  exists instances pages changes toRemove,
    reconciles w suffix zoneID invokerID instances pages /\
    eachInstance suffix instances ([], eachPage (fn suffix) pages ∅)
      = Ok (changes, toRemove) /\
    changes <> [] /\
    input = changeInput zoneID (changes ++ (rangeMap rt toRemove).*2) /\
    (run rt w suffix zoneID invokerID).2 = [input].
Proof.
  destruct run_cases as [(instances & pages & Hrec)|(r & -> & _)]; [|intros []].
  rewrite (run_reconciles _ _ Hrec). intros Hin.
  apply reconcileTail_submitted in Hin as (changes & toRemove & ? & ? & ? & ?).
  exists instances, pages, changes, toRemove. auto.
Qed.

End Run.

(** ** The submitted batch *)

Section Batch.

Variables (rt : MapOrder) (suffix : string).

Lemma rangeMap_elem toRemove ch :
  In ch (rangeMap rt toRemove).*2 <-> exists name, toRemove !! name = Some ch.
Proof.
  rewrite <- list_elem_of_In, (rangeMap_perm rt toRemove), list_elem_of_fmap.
  split.
  - intros ([name ch'] & -> & H). apply elem_of_map_to_list in H. eauto.
  - intros [name H]. exists (name, ch). split; [reflexivity|].
    now apply elem_of_map_to_list.
Qed.

Lemma upserts_isUpsert instances :
  Forall isUpsert (omap (upsertFor suffix) instances).
Proof.
  apply List.Forall_forall. intros ch Hin.
  apply list_elem_of_In, list_elem_of_omap in Hin as (inst & _ & H).
  apply upsertFor_name in H as (? & ? & ? & _ & _ & _ & ->).
  apply isUpsert_upsert.
Qed.

Lemma upsert_in_isUpsert instances ch :
  In ch (omap (upsertFor suffix) instances) -> isUpsert ch.
Proof.
  pose proof (upserts_isUpsert instances) as H.
  rewrite List.Forall_forall in H. apply H.
Qed.

Lemma isUpsert_not_isDelete ch : isUpsert ch -> isDelete ch -> False.
Proof. unfold isUpsert, isDelete. congruence. Qed.

(** What the loop leaves of the candidates. *)
Lemma leftover_candidates instances pages changes toRemove name ch :
  eachInstance suffix instances ([], eachPage (fn suffix) pages ∅)
    = Ok (changes, toRemove) ->
  toRemove !! name = Some ch ->
  ~ In (Some name) (changeName <$> changes) /\
  exists rr, In rr (zoneRecords pages) /\ managed suffix rr /\
    ResourceRecordSet.Name rr = Some (name +:+ ".") /\
    ch = deleteChange name rr.
Proof.
  intros Hloop Hl. apply eachInstance_spec in Hloop as [-> Hm].
  rewrite Hm in Hl. case_decide as Hd; [discriminate|]. split.
  - cbn [app]. now rewrite <- list_elem_of_In.
  - eapply eachPage_candidates. eassumption.
Qed.

End Batch.

(** ** The safety guard *)

(** C1. Once [run] has both snapshots: when the loop over the instances
    ends without a single UPSERT, [run] fails with "no changes to apply"
    and sends nothing to the zone; when it ends with at least one, that
    error is not the outcome.  With an empty instance snapshot the guard
    always fires. *)
Theorem C1_no_changes_guard rt w suffix zoneID invokerID instances pages :
  reconciles w suffix zoneID invokerID instances pages ->
  (forall changes toRemove,
     eachInstance suffix instances ([], eachPage (fn suffix) pages ∅)
       = Ok (changes, toRemove) ->
     Forall isUpsert changes /\
     (changes = [] ->
      run rt w suffix zoneID invokerID = (Err ErrNoChanges, [])) /\
     (changes <> [] ->
      (run rt w suffix zoneID invokerID).1 <> Err ErrNoChanges)) /\
  (instances = [] ->
   run rt w suffix zoneID invokerID = (Err ErrNoChanges, [])).
Proof.
  intros Hrec. rewrite (run_reconciles rt _ _ _ _ _ _ Hrec).
  unfold reconcileTail. split.
  - intros changes toRemove Hloop. rewrite Hloop.
    split; [|split].
    + apply eachInstance_spec in Hloop as [-> _]. apply upserts_isUpsert.
    + now intros ->.
    + intros Hne. destruct changes as [|ch changes]; [contradiction|].
      cbn [length Nat.eqb]. cbv zeta.
      destruct (ChangeResourceRecordSets w _); discriminate.
  - now intros ->.
Qed.

Lemma C1_no_changes_guard_witness :
  run listOrder emptyWorld ".foo.example.com" "Z1" "" = (Err ErrNoChanges, []).
Proof.
  apply (C1_no_changes_guard listOrder emptyWorld ".foo.example.com" "Z1" ""
           [] [ {| ListResourceRecordSetsOutput.ResourceRecordSets :=
                     [rrOld; rrWeb] |} ]).
  - repeat split.
  - reflexivity.
Defined.

(** ** Which record an instance gets *)

Section Desired.

Lemma desiredRecord_hostname inst dns :
  Instance.PublicDnsName inst = Some dns -> dns <> ""%string ->
  desiredRecord inst = Some ("CNAME"%string, dns).
Proof.
  intros E Hne. apply String.eqb_neq in Hne.
  unfold desiredRecord, nonEmpty. rewrite E, Hne.
  now destruct (Instance.PublicIpAddress inst).
Qed.

Lemma desiredRecord_address inst ip :
  nonEmpty (Instance.PublicDnsName inst) = false ->
  Instance.PublicIpAddress inst = Some ip -> ip <> ""%string ->
  desiredRecord inst = Some ("A"%string, ip).
Proof.
  intros Hd E Hne. apply String.eqb_neq in Hne.
  unfold desiredRecord. rewrite E.
  destruct (Instance.PublicDnsName inst) as [dns|]; [rewrite Hd|];
    unfold nonEmpty; now rewrite Hne.
Qed.

Lemma desiredRecord_none inst :
  nonEmpty (Instance.PublicDnsName inst) = false ->
  nonEmpty (Instance.PublicIpAddress inst) = false ->
  desiredRecord inst = None.
Proof.
  intros Hd Hi. unfold desiredRecord.
  destruct (Instance.PublicDnsName inst), (Instance.PublicIpAddress inst);
    rewrite ?Hd, ?Hi; reflexivity.
Qed.

Lemma desiredRecord_some inst :
  (nonEmpty (Instance.PublicDnsName inst)
   || nonEmpty (Instance.PublicIpAddress inst)) = true ->
  exists kind target, desiredRecord inst = Some (kind, target).
Proof.
  unfold desiredRecord.
  destruct (Instance.PublicDnsName inst) as [dns|],
    (Instance.PublicIpAddress inst) as [ip|];
    try destruct (nonEmpty (Some dns)); try destruct (nonEmpty (Some ip));
    cbn; try discriminate; eauto.
Qed.

Lemma upsertFor_desired suffix inst label kind target :
  nameTag (Instance.Tags inst) = Ok label -> valid label = true ->
  desiredRecord inst = Some (kind, target) ->
  upsertFor suffix inst = Some (upsertChange (label +:+ suffix) kind target).
Proof. intros EN Hv Hd. unfold upsertFor. now rewrite EN, Hv, Hd. Qed.

Lemma valid_nonempty label : valid label = true -> label <> ""%string.
Proof. now intros H ->. Qed.

End Desired.

(** C2. No DELETE of the submitted batch names [label + suffix] when
    [label] is the valid label of an instance of the running-instances
    response that carries no lifecycle class and has a non-empty public
    hostname or public address.  (An instance with a lifecycle class, be it
    "standard", is not in the snapshot and keeps no record.) *)
Theorem C2_live_record_kept rt w suffix zoneID invokerID input resp inst label :
  In input (run rt w suffix zoneID invokerID).2 ->
  DescribeInstances w runningFilter = inl resp ->
  In inst (responseInstances resp) ->
  Instance.InstanceLifecycle inst = None ->
  nameTag (Instance.Tags inst) = Ok label ->
  valid label = true ->
  (nonEmpty (Instance.PublicDnsName inst)
   || nonEmpty (Instance.PublicIpAddress inst)) = true ->
  forall ch, In ch (batchOf input) -> isDelete ch ->
    changeName ch <> Some (label +:+ suffix).
Proof.
  intros Hin Hresp Hinst Hlife EN Hv Hpub ch Hch Hdel Hname.
  apply run_submitted in Hin
    as (instances & pages & changes & toRemove & Hrec & Hloop & _ & -> & _).
  destruct Hrec as (_ & _ & _ & Hrun & _).
  rewrite (runningInstances_response _ _ Hresp) in Hrun. injection Hrun as <-.
  unfold batchOf in Hch. cbn in Hch. apply in_app_or in Hch as [Hch|Hch].
  - pose proof Hloop as Hl. apply eachInstance_spec in Hl as [-> _].
    cbn [app] in Hch.
    exact (isUpsert_not_isDelete _ (upsert_in_isUpsert _ _ _ Hch) Hdel).
  - apply rangeMap_elem in Hch as [name Hl].
    destruct (leftover_candidates _ _ _ _ _ _ _ Hloop Hl)
      as (Hnot & rr & _ & _ & _ & ->).
    cbn in Hname. injection Hname as ->. apply Hnot.
    apply eachInstance_spec in Hloop as [-> _]. cbn [app].
    destruct (desiredRecord_some _ Hpub) as (kind & target & Hd).
    apply list_elem_of_In, list_elem_of_fmap.
    exists (upsertChange (label +:+ suffix) kind target). split; [reflexivity|].
    apply list_elem_of_omap. exists inst. split.
    + apply list_elem_of_In, List.filter_In. split; [assumption|].
      unfold noLifecycle. now rewrite Hlife.
    + now apply upsertFor_desired.
Qed.

Lemma C2_live_record_kept_witness :
  changeName (deleteChange "old.foo.example.com" rrOld)
  <> Some "web.foo.example.com"%string.
Proof.
  apply (C2_live_record_kept listOrder staleWorld ".foo.example.com" "Z1" ""
           (changeInput "Z1"
              [upsertChange "web.foo.example.com" "A" "5.6.7.8";
               deleteChange "old.foo.example.com" rrOld])
           {| DescribeInstancesOutput.Reservations :=
                [ {| Reservation.Instances := [instWeb] |} ];
              DescribeInstancesOutput.NextToken := None |}
           instWeb "web").
  - vm_compute. left. reflexivity.
  - reflexivity.
  - simpl. left. reflexivity.
  - reflexivity.
  - reflexivity.
  - reflexivity.
  - reflexivity.
  - simpl. right. left. reflexivity.
  - reflexivity.
Defined.

(** "app" runs with the lifecycle class "standard", a valid label and a
    public address, and the batch deletes "app.foo.example.com": as the
    rule is worded, with "standard" among the classes that take part, it
    fails. *)
Lemma C2_counterexample :
  ~ (forall rt w suffix zoneID invokerID input resp inst label,
       In input (run rt w suffix zoneID invokerID).2 ->
       DescribeInstances w runningFilter = inl resp ->
       In inst (responseInstances resp) ->
       specKeeps inst = true ->
       nameTag (Instance.Tags inst) = Ok label ->
       valid label = true ->
       (nonEmpty (Instance.PublicDnsName inst)
        || nonEmpty (Instance.PublicIpAddress inst)) = true ->
       forall ch, In ch (batchOf input) -> isDelete ch ->
         changeName ch <> Some (label +:+ suffix)).
Proof.
  intros H.
  apply (H listOrder classedWorld ".foo.example.com" "Z1" ""
           (changeInput "Z1"
              [upsertChange "web.foo.example.com" "A" "5.6.7.8";
               deleteChange "app.foo.example.com" rrApp])
           {| DescribeInstancesOutput.Reservations :=
                [ {| Reservation.Instances := [instWeb; instStandard] |} ];
              DescribeInstancesOutput.NextToken := None |}
           instStandard "app"
           ltac:(vm_compute; left; reflexivity) eq_refl
           ltac:(simpl; right; left; reflexivity) eq_refl eq_refl eq_refl
           eq_refl
           (deleteChange "app.foo.example.com" rrApp)
           ltac:(simpl; right; left; reflexivity) eq_refl)%string.
  reflexivity.
Qed.

(** C5. For an instance of the snapshot with a valid label: a non-empty
    public hostname puts into the batch a change with action UPSERT, name
    [label + suffix], kind CNAME, the hostname as its one target and a
    time-to-live of 60; failing that, a non-empty public address puts into
    it such a change of kind A with the address as its one target; failing
    both, the iteration leaves changes and candidates as they were.  Every
    change of the batch is a DELETE or an UPSERT with a time-to-live
    of 60. *)
Theorem C5_record_by_priority rt w suffix zoneID invokerID input instances
    inst label :
  In input (run rt w suffix zoneID invokerID).2 ->
  runningInstances w = Ok instances ->
  In inst instances ->
  nameTag (Instance.Tags inst) = Ok label ->
  valid label = true ->
  (forall dns,
     Instance.PublicDnsName inst = Some dns -> dns <> ""%string ->
     exists ch, In ch (batchOf input) /\
       Change.Action ch = Some "UPSERT"%string /\
       ResourceRecordSet.Name (Change.ResourceRecordSet ch)
         = Some (label +:+ suffix) /\
       ResourceRecordSet.Type_ (Change.ResourceRecordSet ch)
         = Some "CNAME"%string /\
       ResourceRecordSet.ResourceRecords (Change.ResourceRecordSet ch)
         = [ {| ResourceRecord.Value := Some dns |} ] /\
       ResourceRecordSet.TTL (Change.ResourceRecordSet ch) = Some 60) /\
  (forall ip,
     nonEmpty (Instance.PublicDnsName inst) = false ->
     Instance.PublicIpAddress inst = Some ip -> ip <> ""%string ->
     exists ch, In ch (batchOf input) /\
       Change.Action ch = Some "UPSERT"%string /\
       ResourceRecordSet.Name (Change.ResourceRecordSet ch)
         = Some (label +:+ suffix) /\
       ResourceRecordSet.Type_ (Change.ResourceRecordSet ch)
         = Some "A"%string /\
       ResourceRecordSet.ResourceRecords (Change.ResourceRecordSet ch)
         = [ {| ResourceRecord.Value := Some ip |} ] /\
       ResourceRecordSet.TTL (Change.ResourceRecordSet ch) = Some 60) /\
  (nonEmpty (Instance.PublicDnsName inst) = false ->
   nonEmpty (Instance.PublicIpAddress inst) = false ->
   forall st, instanceStep suffix st inst = Ok st) /\
  (forall ch, In ch (batchOf input) ->
     Change.Action ch = Some "DELETE"%string \/
     (Change.Action ch = Some "UPSERT"%string /\
      ResourceRecordSet.TTL (Change.ResourceRecordSet ch) = Some 60)).
Proof.
  intros Hin Hrun Hinst EN Hv.
  apply run_submitted in Hin
    as (instances' & pages & changes & toRemove & Hrec & Hloop & _ & -> & _).
  destruct Hrec as (_ & _ & _ & Hrun' & _).
  rewrite Hrun in Hrun'. injection Hrun' as <-.
  pose proof Hloop as Hl. apply eachInstance_spec in Hl as [Hch _].
  cbn [app] in Hch. unfold batchOf. cbn.
  assert (Hemit : forall kind target,
            desiredRecord inst = Some (kind, target) ->
            In (upsertChange (label +:+ suffix) kind target)
               (changes ++ (rangeMap rt toRemove).*2)).
  { intros kind target Hd. apply in_or_app. left. rewrite Hch.
    apply list_elem_of_In, list_elem_of_omap. exists inst.
    split; [now apply list_elem_of_In|now apply upsertFor_desired]. }
  split; [|split; [|split]].
  - intros dns Hd Hne.
    exists (upsertChange (label +:+ suffix) "CNAME" dns).
    split; [now apply Hemit, desiredRecord_hostname|].
    repeat split.
  - intros ip Hd Hi Hne.
    exists (upsertChange (label +:+ suffix) "A" ip).
    split; [now apply Hemit, desiredRecord_address|].
    repeat split.
  - intros Hd Hi.
    assert (HU : upsertFor suffix inst = None).
    { unfold upsertFor. rewrite EN, Hv. now rewrite desiredRecord_none. }
    intros [c m]. now rewrite instanceStep_spec, EN, HU.
  - intros ch Hin. apply in_app_or in Hin as [Hin|Hin].
    + right. rewrite Hch in Hin.
      apply list_elem_of_In, list_elem_of_omap in Hin as (i & _ & Hi).
      apply upsertFor_name in Hi as (? & ? & ? & _ & _ & _ & ->).
      split; reflexivity.
    + left. apply rangeMap_elem in Hin as [name Hl].
      now destruct (leftover_candidates _ _ _ _ _ _ _ Hloop Hl)
        as (_ & rr & _ & _ & _ & ->).
Qed.

Lemma C5_record_by_priority_witness :
  exists ch,
    In ch
      [ {| Change.Action := Some "UPSERT"%string;
           Change.ResourceRecordSet :=
             {| ResourceRecordSet.Name := Some "web.foo.example.com"%string;
                ResourceRecordSet.TTL := Some 60;
                ResourceRecordSet.Type_ := Some "A"%string;
                ResourceRecordSet.ResourceRecords :=
                  [ {| ResourceRecord.Value := Some "5.6.7.8"%string |} ] |} |};
        {| Change.Action := Some "DELETE"%string;
           Change.ResourceRecordSet :=
             {| ResourceRecordSet.Name := Some "old.foo.example.com"%string;
                ResourceRecordSet.TTL := Some 300;
                ResourceRecordSet.Type_ := Some "A"%string;
                ResourceRecordSet.ResourceRecords :=
                  [ {| ResourceRecord.Value := Some "1.2.3.4"%string |} ] |} |} ] /\
    Change.Action ch = Some "UPSERT"%string /\
    ResourceRecordSet.Name (Change.ResourceRecordSet ch)
      = Some ("web" +:+ ".foo.example.com") /\
    ResourceRecordSet.Type_ (Change.ResourceRecordSet ch) = Some "A"%string /\
    ResourceRecordSet.ResourceRecords (Change.ResourceRecordSet ch)
      = [ {| ResourceRecord.Value := Some "5.6.7.8"%string |} ] /\
    ResourceRecordSet.TTL (Change.ResourceRecordSet ch) = Some 60.
Proof.
  refine (proj1 (proj2
    (C5_record_by_priority listOrder staleWorld ".foo.example.com" "Z1" ""
       {| ChangeResourceRecordSetsInput.HostedZoneId := Some "Z1"%string;
          ChangeResourceRecordSetsInput.ChangeBatch :=
            {| ChangeBatch.Changes := _;
               ChangeBatch.Comment :=
                 Some "automated update for running instances"%string |} |}
       [instWeb] instWeb "web" _ _ _ _ _)) "5.6.7.8"%string _ _ _).
  - vm_compute. left. reflexivity.
  - reflexivity.
  - simpl. left. reflexivity.
  - reflexivity.
  - reflexivity.
  - reflexivity.
  - reflexivity.
  - discriminate.
Defined.

(** ** Isolation of the managed names *)

(** C8. Every change of the submitted batch names [prefix + suffix] for a
    non-empty prefix, so none names a record outside the suffix.  Every
    DELETE moreover repeats a record of the zone listing whose
    separator-terminated name is strictly longer than the
    separator-terminated suffix and ends with it, and whose kind is A or
    CNAME. *)
Theorem C8_only_managed_names rt w suffix zoneID invokerID input :
  In input (run rt w suffix zoneID invokerID).2 ->
  forall ch, In ch (batchOf input) ->
    (exists prefix, prefix <> ""%string /\
       changeName ch = Some (prefix +:+ suffix)) /\
    (isDelete ch ->
     exists pages rr name rrName kind,
       ListResourceRecordSetsPages w (listInput zoneID) = (pages, None) /\
       In rr (zoneRecords pages) /\
       ch = deleteChange name rr /\
       ResourceRecordSet.Name rr = Some rrName /\
       rrName = name +:+ "." /\
       (String.length (suffix +:+ ".") < String.length rrName)%nat /\
       (exists prefix, rrName = prefix +:+ (suffix +:+ ".")) /\
       HasSuffix rrName (suffix +:+ ".") = true /\
       ResourceRecordSet.Type_ rr = Some kind /\
       (kind = "A"%string \/ kind = "CNAME"%string)).
Proof.
  intros Hin ch Hch.
  apply run_submitted in Hin
    as (instances & pages & changes & toRemove & Hrec & Hloop & _ & -> & _).
  destruct Hrec as (_ & _ & _ & _ & _ & Hlist).
  unfold batchOf in Hch. cbn in Hch. apply in_app_or in Hch as [Hch|Hch].
  - pose proof Hloop as Hl. apply eachInstance_spec in Hl as [-> _].
    cbn [app] in Hch. split.
    + apply list_elem_of_In, list_elem_of_omap in Hch as (inst & _ & Hi).
      apply upsertFor_name in Hi as (label & ? & ? & _ & Hv & _ & ->).
      exists label. split; [now apply valid_nonempty|reflexivity].
    + intros Hdel.
      destruct (isUpsert_not_isDelete _ (upsert_in_isUpsert _ _ _ Hch) Hdel).
  - apply rangeMap_elem in Hch as [name Hl].
    destruct (leftover_candidates _ _ _ _ _ _ _ Hloop Hl)
      as (_ & rr & Hrr & (prefix & kind & Hp & HN & HT & Hk) & HN' & ->).
    assert (Hname : name = prefix +:+ suffix).
    { rewrite HN in HN'. injection HN' as HN'.
      rewrite <- append_assoc in HN'. now apply append_inj_r in HN'. }
    split.
    + exists prefix. split; [assumption|]. cbn. now rewrite Hname.
    + intros _. exists pages, rr, name, (name +:+ "."), kind.
      repeat split; try assumption.
      * rewrite Hname, append_assoc, !length_append.
        destruct prefix; [contradiction|cbn; lia].
      * exists prefix. now rewrite Hname, append_assoc.
      * apply HasSuffix_iff. exists prefix. now rewrite Hname, append_assoc.
Qed.

Lemma C8_only_managed_names_witness :
  exists prefix, prefix <> ""%string /\
    changeName (deleteChange "old.foo.example.com" rrOld)
    = Some (prefix +:+ ".foo.example.com").
Proof.
  refine (proj1
    (C8_only_managed_names listOrder staleWorld ".foo.example.com" "Z1" ""
       (changeInput "Z1"
          [upsertChange "web.foo.example.com" "A" "5.6.7.8";
           deleteChange "old.foo.example.com" rrOld])
       _ (deleteChange "old.foo.example.com" rrOld) _)).
  - vm_compute. left. reflexivity.
  - simpl. right. left. reflexivity.
Defined.

(** ** Names in the batch *)

Section Names.

Lemma names_of_entries (l : list (string * Change.t)) :
  (forall name ch, (name, ch) ∈ l -> changeName ch = Some name) ->
  changeName <$> l.*2 = Some <$> l.*1.
Proof.
  induction l as [|[name ch] l IH]; intros H; cbn; [reflexivity|].
  rewrite (H name ch) by apply list_elem_of_here.
  f_equal. apply IH. intros n c Hin. apply H. now apply list_elem_of_further.
Qed.

Lemma rangeMap_lookup rt (toRemove : gmap string Change.t) name ch :
  (name, ch) ∈ rangeMap rt toRemove <-> toRemove !! name = Some ch.
Proof. rewrite (rangeMap_perm rt toRemove). apply elem_of_map_to_list. Qed.

Lemma rangeMap_NoDup rt (toRemove : gmap string Change.t) :
  NoDup (rangeMap rt toRemove).*1.
Proof.
  rewrite (rangeMap_perm rt toRemove). apply NoDup_fst_map_to_list.
Qed.

(** Two runtimes enumerate the same entries. *)
Lemma rangeMap_any_order rt1 rt2 (toRemove : gmap string Change.t) :
  (rangeMap rt1 toRemove).*2 ≡ₚ (rangeMap rt2 toRemove).*2.
Proof. now rewrite !rangeMap_perm. Qed.

Lemma rangeMap_nil rt (toRemove : gmap string Change.t) :
  (rangeMap rt toRemove).*2 = [] <-> toRemove = ∅.
Proof.
  split.
  - intros H. apply map_to_list_empty_iff, Permutation_nil_r.
    rewrite <- (rangeMap_perm rt toRemove).
    now destruct (rangeMap rt toRemove).
  - intros ->. pose proof (rangeMap_perm rt (∅ : gmap string Change.t)) as H.
    rewrite map_to_list_empty in H. apply Permutation_nil_r in H.
    now rewrite H.
Qed.

End Names.

(** C3. Two changes of the submitted batch can share a fully-qualified
    name only when both are UPSERTs.  The batch is the UPSERTs, one for each
    instance that yields a record and in processing order (two instances
    with the same label give two UPSERTs for the same name, the earlier one
    is not overwritten), followed by the DELETEs; no two DELETEs share a
    name, no DELETE bears the name of an UPSERT, and the batch has one
    change per name whenever the UPSERTs have distinct names. *)
Theorem C3_shared_names_are_upserts rt w suffix zoneID invokerID input :
  In input (run rt w suffix zoneID invokerID).2 ->
  exists instances upserts deletes,
    runningInstances w = Ok instances /\
    upserts = omap (upsertFor suffix) instances /\
    batchOf input = upserts ++ deletes /\
    Forall isUpsert upserts /\
    Forall isDelete deletes /\
    NoDup (changeName <$> deletes) /\
    (forall u d, In u upserts -> In d deletes -> changeName u <> changeName d) /\
    (NoDup (changeName <$> upserts) -> NoDup (changeName <$> batchOf input)).
Proof.
  intros Hin.
  apply run_submitted in Hin
    as (instances & pages & changes & toRemove & Hrec & Hloop & _ & -> & _).
  destruct Hrec as (_ & _ & _ & Hrun & _).
  exists instances, changes, (rangeMap rt toRemove).*2.
  pose proof Hloop as Hl. apply eachInstance_spec in Hl as [Hch _].
  cbn [app] in Hch.
  assert (Hentry : forall name ch, (name, ch) ∈ rangeMap rt toRemove ->
            ~ In (Some name) (changeName <$> changes) /\
            changeName ch = Some name /\ isDelete ch).
  { intros name ch Hl. apply rangeMap_lookup in Hl.
    destruct (leftover_candidates _ _ _ _ _ _ _ Hloop Hl)
      as (Hnot & rr & _ & _ & _ & ->).
    split; [assumption|]. split; reflexivity. }
  assert (Hdisj : forall u d, In u changes -> In d (rangeMap rt toRemove).*2 ->
            changeName u <> changeName d).
  { intros u d Hu Hd E.
    apply list_elem_of_In, list_elem_of_fmap in Hd as ([name ch] & -> & Hd).
    destruct (Hentry _ _ Hd) as (Hnot & Hname & _). cbn in E.
    apply Hnot. rewrite <- Hname, <- E.
    apply list_elem_of_In, list_elem_of_fmap. exists u.
    split; [reflexivity|now apply list_elem_of_In]. }
  assert (Hnodup : NoDup (changeName <$> (rangeMap rt toRemove).*2)).
  { rewrite names_of_entries by (intros n c H; apply (Hentry n c H)).
    apply (NoDup_fmap_2 Some), rangeMap_NoDup. }
  repeat split; try assumption.
  - rewrite Hch. apply upserts_isUpsert.
  - apply List.Forall_forall. intros d Hd.
    apply list_elem_of_In, list_elem_of_fmap in Hd as ([name ch] & -> & Hd).
    apply (Hentry _ _ Hd).
  - intros HU. unfold batchOf. cbn. rewrite fmap_app.
    apply NoDup_app. split; [assumption|]. split; [|assumption].
    intros x Hx Hx'.
    apply list_elem_of_fmap in Hx as (u & -> & Hu).
    apply list_elem_of_fmap in Hx' as (d & E & Hd).
    apply (Hdisj u d); [now apply list_elem_of_In|now apply list_elem_of_In|assumption].
Qed.

Lemma C3_shared_names_are_upserts_witness :
  exists instances upserts deletes,
    runningInstances twinsWorld = Ok instances /\
    upserts = omap (upsertFor ".foo.example.com") instances /\
    [upsertChange "web.foo.example.com" "A" "5.6.7.8";
     upsertChange "web.foo.example.com" "CNAME" "ec2-5-6-7-8.example.net";
     deleteChange "old.foo.example.com" rrOld] = upserts ++ deletes /\
    Forall isUpsert upserts /\
    Forall isDelete deletes /\
    NoDup (changeName <$> deletes) /\
    (forall u d, In u upserts -> In d deletes -> changeName u <> changeName d) /\
    (NoDup (changeName <$> upserts) ->
     NoDup (changeName <$>
        [upsertChange "web.foo.example.com" "A" "5.6.7.8";
         upsertChange "web.foo.example.com" "CNAME" "ec2-5-6-7-8.example.net";
         deleteChange "old.foo.example.com" rrOld])).
Proof.
  apply (C3_shared_names_are_upserts listOrder twinsWorld ".foo.example.com"
           "Z1" ""
           (changeInput "Z1"
              [upsertChange "web.foo.example.com" "A" "5.6.7.8";
               upsertChange "web.foo.example.com" "CNAME"
                 "ec2-5-6-7-8.example.net";
               deleteChange "old.foo.example.com" rrOld])).
  vm_compute. left. reflexivity.
Defined.

(** Two instances labelled "web" leave two UPSERTs for
    "web.foo.example.com" in the batch, so the claim that no two changes
    of a batch share a name fails. *)
Lemma C3_counterexample :
  ~ (forall rt w suffix zoneID invokerID input,
       In input (run rt w suffix zoneID invokerID).2 ->
       NoDup (changeName <$> batchOf input)).
Proof.
  intros H.
  specialize (H listOrder twinsWorld ".foo.example.com" "Z1" ""
                (changeInput "Z1"
                   [upsertChange "web.foo.example.com" "A" "5.6.7.8";
                    upsertChange "web.foo.example.com" "CNAME"
                      "ec2-5-6-7-8.example.net";
                    deleteChange "old.foo.example.com" rrOld])
                ltac:(vm_compute; left; reflexivity))%string.
  cbn in H. apply NoDup_cons in H as [H _]. apply H. left.
Qed.

(** ** Running twice on the same state *)

Lemma reconcileTail_writes rt w suffix zoneID instances pages changes toRemove :
  eachInstance suffix instances ([], eachPage (fn suffix) pages ∅)
    = Ok (changes, toRemove) ->
  changes <> [] ->
  (reconcileTail rt w suffix zoneID instances pages).2
  = [changeInput zoneID (changes ++ (rangeMap rt toRemove).*2)].
Proof.
  intros Hloop Hne. unfold reconcileTail. rewrite Hloop.
  destruct changes as [|ch changes]; [contradiction|].
  cbn [length Nat.eqb]. cbv zeta.
  now destruct (ChangeResourceRecordSets w _).
Qed.

(** Two runs on the same instances and the same zone listing submit the
    same batch up to the order of its DELETEs, and the batch is free of
    DELETEs exactly when every managed record of the listing bears the name
    of one of the UPSERTs. *)
Lemma batch_up_to_order rt1 rt2 w suffix zoneID invokerID input1 :
  In input1 (run rt1 w suffix zoneID invokerID).2 ->
  exists input2 pages upserts deletes1 deletes2,
    (run rt2 w suffix zoneID invokerID).2 = [input2] /\
    ListResourceRecordSetsPages w (listInput zoneID) = (pages, None) /\
    input1 = changeInput zoneID (upserts ++ deletes1) /\
    input2 = changeInput zoneID (upserts ++ deletes2) /\
    deletes1 ≡ₚ deletes2 /\
    Forall isUpsert upserts /\
    Forall isDelete deletes1 /\
    (deletes1 = [] <->
     forall rr name,
       In rr (zoneRecords pages) -> managed suffix rr ->
       ResourceRecordSet.Name rr = Some (name +:+ ".") ->
       In (Some name) (changeName <$> upserts)).
Proof.
  intros Hin.
  apply run_submitted in Hin
    as (instances & pages & changes & toRemove & Hrec & Hloop & Hne & -> & _).
  exists (changeInput zoneID (changes ++ (rangeMap rt2 toRemove).*2)), pages,
    changes, (rangeMap rt1 toRemove).*2, (rangeMap rt2 toRemove).*2.
  rewrite (run_reconciles rt2 _ _ _ _ _ _ Hrec).
  rewrite (reconcileTail_writes _ _ _ _ _ _ _ _ Hloop Hne).
  pose proof Hrec as (_ & _ & _ & _ & _ & Hlist).
  pose proof Hloop as Hl. apply eachInstance_spec in Hl as [Hch Hm].
  cbn [app] in Hch.
  repeat split; try reflexivity; try assumption.
  - apply rangeMap_any_order.
  - rewrite Hch. apply upserts_isUpsert.
  - apply List.Forall_forall. intros d Hd.
    apply rangeMap_elem in Hd as [name Hd].
    now destruct (leftover_candidates _ _ _ _ _ _ _ Hloop Hd)
      as (_ & rr & _ & _ & _ & ->).
  - intros Hnil rr name Hrr Hman HN. apply rangeMap_nil in Hnil.
    assert (Hsome : is_Some (eachPage (fn suffix) pages ∅ !! name))
      by (apply eachPage_dom; eauto).
    specialize (Hm name). rewrite Hnil, lookup_empty, <- Hch in Hm.
    case_decide as Hd; [now apply list_elem_of_In|].
    destruct Hsome as [ch Hsome]. congruence.
  - intros Hall. apply rangeMap_nil, map_empty. intros name.
    rewrite Hm, <- Hch. case_decide as Hd; [reflexivity|].
    destruct (eachPage (fn suffix) pages ∅ !! name) as [ch|] eqn:E;
      [|reflexivity].
    exfalso. apply Hd.
    assert (Hsome : is_Some (eachPage (fn suffix) pages ∅ !! name)) by eauto.
    apply eachPage_dom in Hsome as (rr & Hrr & Hman & HN).
    apply list_elem_of_In. eauto.
Qed.

(** ** The zone store *)

Section ZoneStore.













Lemma wellFormed_upsert name kind target :
  wellFormed (upsertChange name kind target) = true.
Proof. reflexivity. Qed.

Lemma wellFormed_delete name rr : wellFormed (deleteChange name rr) = true.
Proof. reflexivity. Qed.

End ZoneStore.

(** ** Running twice in succession *)

Section Succession.

Variables (rt1 rt2 : MapOrder) (w1 w2 : World).
Variables (suffix zoneID invokerID : string).
Variable zone : gmap string ResourceRecordSet.t.



End Succession.



(** ** Lifecycle filtering *)

(** C6. The snapshot keeps, in the order of the response, exactly the
    instances whose lifecycle class is absent; an instance with any class
    at all, the empty one and "standard" included, is dropped. *)
Theorem C6_kept_iff_no_lifecycle w resp :
  DescribeInstances w runningFilter = inl resp ->
  runningInstances w = Ok (List.filter noLifecycle (responseInstances resp)) /\
  forall inst,
    In inst (List.filter noLifecycle (responseInstances resp)) <->
    In inst (responseInstances resp) /\ Instance.InstanceLifecycle inst = None.
Proof.
  intros Hresp. split; [now apply runningInstances_response|].
  intros inst. rewrite List.filter_In. unfold noLifecycle.
  destruct (Instance.InstanceLifecycle inst); intuition congruence.
Qed.

Lemma C6_kept_iff_no_lifecycle_witness :
  runningInstances standardWorld = Ok [].
Proof.
  exact (proj1 (C6_kept_iff_no_lifecycle standardWorld
    {| DescribeInstancesOutput.Reservations :=
         [ {| Reservation.Instances := [instStandard] |} ];
       DescribeInstancesOutput.NextToken := None |} eq_refl)).
Defined.

(** An instance whose lifecycle class is "standard" is dropped although
    the rule as worded keeps it. *)
Lemma C6_counterexample :
  ~ (forall w resp,
       DescribeInstances w runningFilter = inl resp ->
       runningInstances w = Ok (List.filter specKeeps (responseInstances resp))).
Proof.
  intros H.
  specialize (H standardWorld
    {| DescribeInstancesOutput.Reservations :=
         [ {| Reservation.Instances := [instStandard] |} ];
       DescribeInstancesOutput.NextToken := None |} eq_refl).
  discriminate H.
Qed.

(** ** Pages of the instance listing *)

(** C7. [runningInstances] reads the first page of the answer only: "db",
    a running instance without lifecycle class on the second page, is not
    in the snapshot, and [run] then deletes the record of "db". *)
Theorem C7_later_pages_unread :
  In instDb
     (flat_map responseInstances (describePages 2 pagedWorld runningFilter)) /\
  Instance.InstanceLifecycle instDb = None /\
  runningInstances pagedWorld = Ok [instWeb] /\
  ~ In instDb [instWeb] /\
  run listOrder pagedWorld ".foo.example.com" "Z1" ""
  = (Ok (),
     [changeInput "Z1"
        [upsertChange "web.foo.example.com" "A" "5.6.7.8";
         deleteChange "db.foo.example.com" rrDb]]).
Proof.
  split; [cbn; auto|]. split; [reflexivity|]. split; [reflexivity|].
  split; [|vm_compute; reflexivity].
  intros [H|[]]. discriminate H.
Qed.

(** ** Nil pointers *)

Section Panics.

Lemma nameTag_Panic_iff tags :
  nameTag tags = Panic <->
  exists before tag after,
    tags = before ++ tag :: after /\
    Forall (fun t => exists key, Tag.Key t = Some key /\ key <> "Name"%string)
      before /\
    (Tag.Key tag = None \/
     (Tag.Key tag = Some "Name"%string /\ Tag.Value tag = None)).
Proof.
  induction tags as [|t rest IH]; cbn [nameTag].
  - split; [discriminate|]. intros (b & ? & ? & E & _). now destruct b.
  - destruct (Tag.Key t) as [key|] eqn:EK.
    + destruct (String.eqb_spec key "Name") as [->|Hne].
      * destruct (Tag.Value t) as [v|] eqn:EV.
        -- split; [discriminate|].
           intros ([|t' b] & tag & after & E & Hb & Htag); cbn in E;
             injection E as <- E.
           ++ destruct Htag as [?|[_ ?]]; congruence.
           ++ apply Forall_cons in Hb as [(k & Hk & Hn) _]. congruence.
        -- split; [intros _|reflexivity].
           exists [], t, rest. repeat split; auto.
      * rewrite IH. split.
        -- intros (b & tag & after & -> & Hb & Htag).
           exists (t :: b), tag, after. repeat split; [|assumption].
           apply Forall_cons. eauto.
        -- intros ([|t' b] & tag & after & E & Hb & Htag); cbn in E;
             injection E as <- E.
           ++ destruct Htag as [?|[? _]]; congruence.
           ++ apply Forall_cons in Hb as [_ Hb]. eauto 6.
    + split; [intros _|reflexivity].
      exists [], t, rest. repeat split; auto.
Qed.

Lemma nameTag_total tags :
  Forall (fun t => Tag.Key t <> None /\ Tag.Value t <> None) tags ->
  nameTag tags <> Panic.
Proof.
  intros Hall Hp.
  apply nameTag_Panic_iff in Hp as (b & tag & after & -> & _ & Htag).
  apply Forall_app in Hall as [_ Hall].
  apply Forall_cons in Hall as [[Hk Hv] _].
  destruct Htag as [?|[_ ?]]; contradiction.
Qed.

Lemma reconcileTail_Panic rt w suffix zoneID instances pages :
  (reconcileTail rt w suffix zoneID instances pages).1 = Panic <->
  eachInstance suffix instances ([], eachPage (fn suffix) pages ∅) = Panic.
Proof.
  unfold reconcileTail.
  destruct (eachInstance suffix instances _) as [[changes toRemove]|err|];
    cbn; [|split; discriminate|tauto].
  destruct (length changes =? 0)%nat; [split; discriminate|].
  cbv zeta. destruct (ChangeResourceRecordSets w _); split; discriminate.
Qed.

End Panics.

(** C10. A zone record without name or without kind is skipped.  [run]
    panics exactly when it has reached the loop over the instances and the
    search for the "Name" tag of some instance of the snapshot panics; that
    search reads the keys of the tags up to the first "Name" tag and the
    value of that tag, and panics on the first absent key among them or on
    an absent value of that tag, tags behind the first "Name" tag are never
    read.  When every tag of every listed instance has key and value,
    [run] does not panic. *)
Theorem C10_panic_iff rt w suffix zoneID invokerID :
  (forall toRemove rr,
     ResourceRecordSet.Name rr = None \/ ResourceRecordSet.Type_ rr = None ->
     recordStep (suffix +:+ ".") toRemove rr = toRemove) /\
  ((run rt w suffix zoneID invokerID).1 = Panic <->
   exists instances pages inst,
     reconciles w suffix zoneID invokerID instances pages /\
     In inst instances /\ nameTag (Instance.Tags inst) = Panic) /\
  (forall tags,
     nameTag tags = Panic <->
     exists before tag after,
       tags = before ++ tag :: after /\
       Forall (fun t => exists key, Tag.Key t = Some key /\ key <> "Name"%string)
         before /\
       (Tag.Key tag = None \/
        (Tag.Key tag = Some "Name"%string /\ Tag.Value tag = None))) /\
  ((forall resp inst,
      DescribeInstances w runningFilter = inl resp ->
      In inst (responseInstances resp) ->
      Forall (fun t => Tag.Key t <> None /\ Tag.Value t <> None)
        (Instance.Tags inst)) ->
   (run rt w suffix zoneID invokerID).1 <> Panic).
Proof.
  assert (Hiff : (run rt w suffix zoneID invokerID).1 = Panic <->
            exists instances pages inst,
              reconciles w suffix zoneID invokerID instances pages /\
              In inst instances /\ nameTag (Instance.Tags inst) = Panic).
  { split.
    - intros Hp.
      destruct (run_cases rt w suffix zoneID invokerID)
        as [(instances & pages & Hrec)|(r & E & Hr)].
      + rewrite (run_reconciles rt _ _ _ _ _ _ Hrec) in Hp.
        apply reconcileTail_Panic, eachInstance_Panic in Hp as (inst & ? & ?).
        exists instances, pages, inst. auto.
      + rewrite E in Hp. contradiction.
    - intros (instances & pages & inst & Hrec & Hin & Hp).
      rewrite (run_reconciles rt _ _ _ _ _ _ Hrec).
      apply reconcileTail_Panic, eachInstance_Panic. eauto. }
  split; [|split; [exact Hiff|split; [exact nameTag_Panic_iff|]]].
  - intros toRemove rr [H|H]; unfold recordStep.
    + now rewrite H.
    + destruct (ResourceRecordSet.Name rr) as [n|]; [|reflexivity].
      rewrite H. now destruct (_ || _).
  - intros Hall Hp. apply Hiff in Hp as (instances & pages & inst & Hrec & Hin & Hp).
    destruct Hrec as (_ & _ & _ & Hrun & _).
    apply runningInstances_inv in Hrun as (resp & Hresp & ->).
    apply List.filter_In in Hin as [Hin _].
    exact (nameTag_total _ (Hall resp inst Hresp Hin) Hp).
Qed.

Lemma C10_panic_iff_witness :
  (run listOrder leadingWorld ".foo.example.com" "Z1" "").1 = Panic.
Proof.
  apply (proj2 (proj1 (proj2
    (C10_panic_iff listOrder leadingWorld ".foo.example.com" "Z1" "")))).
  exists [instLeading],
    [ {| ListResourceRecordSetsOutput.ResourceRecordSets := [rrWeb] |} ],
    instLeading.
  split; [repeat split|]. split; [left|]; reflexivity.
Defined.

(** An instance whose tag without key stands behind its "Name" tag does
    not make [run] panic. *)
Lemma C10_counterexample :
  ~ (forall rt w suffix zoneID invokerID instances pages inst tag,
       reconciles w suffix zoneID invokerID instances pages ->
       In inst instances -> In tag (Instance.Tags inst) ->
       Tag.Key tag = None ->
       (run rt w suffix zoneID invokerID).1 = Panic).
Proof.
  intros H.
  specialize (H listOrder trailingWorld ".foo.example.com" "Z1" ""
                [instTrailing]
                [ {| ListResourceRecordSetsOutput.ResourceRecordSets := [rrWeb] |} ]
                instTrailing tagNoKey)%string.
  assert (E : (run listOrder trailingWorld ".foo.example.com" "Z1" "").1 = Ok ())
    by (vm_compute; reflexivity).
  rewrite E in H. discriminate H.
  - repeat split.
  - left; reflexivity.
  - right; left; reflexivity.
  - reflexivity.
Qed.

(** * Further properties of the program *)

(** ** Configuration *)

Section Config.

Lemma HasPrefix_dot suffix :
  HasPrefix suffix "." = true <-> exists rest, suffix = "." +:+ rest.
Proof.
  unfold HasPrefix. destruct suffix as [|c rest]; cbn.
  - split; [discriminate|]. intros [? [=]].
  - destruct (Ascii.eqb_spec c ".") as [->|Hne].
    + split; [intros _; now exists rest|reflexivity].
    + split; [discriminate|]. intros [? [= ? _]]. contradiction.
Qed.

(** The suffix test of [run] passes for a dot followed by something. *)
Lemma suffix_accepted suffix :
  (String.eqb suffix "." || negb (HasPrefix suffix ".")) = false <->
  exists rest, rest <> ""%string /\ suffix = "." +:+ rest.
Proof.
  rewrite orb_false_iff, negb_false_iff, String.eqb_neq, HasPrefix_dot. split.
  - intros [Hne [rest ->]]. exists rest. split; [|reflexivity].
    intros ->. now apply Hne.
  - intros (rest & Hne & ->). split; [|eauto].
    intros [= E]. contradiction.
Qed.

Lemma eachInstance_not_Err suffix instances st err :
  eachInstance suffix instances st <> Err err.
Proof.
  destruct (eachInstance_total suffix instances st) as [[st' E]|E];
    rewrite E; discriminate.
Qed.

End Config.

(** X1. [run] fails with the "invalid suffix" error, and without having
    touched the zone, exactly when the suffix is not a dot followed by at
    least one more character; session, endpoints, zone id and invoker play
    no part in it. *)
Theorem X1_invalid_suffix rt w suffix zoneID invokerID :
  run rt w suffix zoneID invokerID = (Err (ErrInvalidSuffix suffix), []) <->
  ~ (exists rest, rest <> ""%string /\ suffix = "." +:+ rest).
Proof.
  rewrite <- suffix_accepted. unfold run.
  destruct (String.eqb suffix "." || negb (HasPrefix suffix ".")).
  { split; [discriminate|reflexivity]. }
  split; [|intros H; now elim H]. intros H _. revert H.
  destruct (String.eqb zoneID ""); [discriminate|].
  destruct (NewSession w); [discriminate|].
  destruct (runningInstances w) as [instances|err|] eqn:Hrun;
    [|unfold runningInstances in Hrun;
      destruct (DescribeInstances w runningFilter); [discriminate|];
      injection Hrun as <-; discriminate
     |discriminate].
  destruct (negb (String.eqb invokerID "")
            && negb (findInvoker invokerID instances)); [discriminate|].
  destruct (ListResourceRecordSetsPages w (listInput zoneID)) as [pages [e|]];
    [discriminate|].
  destruct (eachInstance suffix instances _) as [[changes toRemove]|e|] eqn:E;
    [|now apply eachInstance_not_Err in E|discriminate].
  destruct (length changes =? 0)%nat; [discriminate|]. cbv zeta.
  destruct (ChangeResourceRecordSets w _); discriminate.
Qed.

(** X2. [run] fails with "hosted zone id cannot be empty", and without
    having touched the zone, exactly when the suffix is acceptable and the
    zone id is empty. *)
Theorem X2_empty_zone rt w suffix zoneID invokerID :
  run rt w suffix zoneID invokerID = (Err ErrEmptyZone, []) <->
  (exists rest, rest <> ""%string /\ suffix = "." +:+ rest) /\
  zoneID = ""%string.
Proof.
  rewrite <- suffix_accepted. unfold run.
  destruct (String.eqb suffix "." || negb (HasPrefix suffix ".")).
  { split; [discriminate|]. now intros [[=] _]. }
  destruct (String.eqb_spec zoneID "") as [->|Hne]; [tauto|].
  split; [|intros [_ ?]; contradiction]. intros H. exfalso. revert H.
  destruct (NewSession w); [discriminate|].
  destruct (runningInstances w) as [instances|err|] eqn:Hrun;
    [|unfold runningInstances in Hrun;
      destruct (DescribeInstances w runningFilter); [discriminate|];
      injection Hrun as <-; discriminate
     |discriminate].
  destruct (negb (String.eqb invokerID "")
            && negb (findInvoker invokerID instances)); [discriminate|].
  destruct (ListResourceRecordSetsPages w (listInput zoneID)) as [pages [e|]];
    [discriminate|].
  destruct (eachInstance suffix instances _) as [[changes toRemove]|e|] eqn:E;
    [|now apply eachInstance_not_Err in E|discriminate].
  destruct (length changes =? 0)%nat; [discriminate|]. cbv zeta.
  destruct (ChangeResourceRecordSets w _); discriminate.
Qed.

(** ** Failed reads and the invoking instance *)

Section Reads.

Lemma findInvoker_iff invokerID instances :
  findInvoker invokerID instances = true <->
  exists inst, In inst instances /\ Instance.InstanceId inst = Some invokerID.
Proof.
  induction instances as [|inst rest IH]; cbn [findInvoker In].
  - split; [discriminate|]. now intros (? & [] & _).
  - destruct (Instance.InstanceId inst) as [id|] eqn:E.
    + destruct (String.eqb_spec id invokerID) as [->|Hne].
      * split; [eauto|reflexivity].
      * rewrite IH. split; intros (i & Hi & Hid); exists i; [auto|].
        destruct Hi as [<-|Hi]; [congruence|auto].
    + rewrite IH. split; intros (i & Hi & Hid); exists i; [auto|].
      destruct Hi as [<-|Hi]; [congruence|auto].
Qed.

Lemma suffix_accepted_intro rest :
  rest <> ""%string ->
  (String.eqb ("." +:+ rest) "." || negb (HasPrefix ("." +:+ rest) ".")) = false.
Proof. intros H. apply suffix_accepted. eauto. Qed.

End Reads.

(** X3. With an acceptable configuration, an error of the session set-up,
    of the instance query or of the zone listing is what [run] returns,
    unchanged and without a write; for the zone listing this holds whatever
    pages the listing had delivered before it failed. *)
Theorem X3_read_errors_propagate rt w rest zoneID invokerID :
  rest <> ""%string -> zoneID <> ""%string ->
  (forall err, NewSession w = Some err ->
     run rt w ("." +:+ rest) zoneID invokerID = (Err (SDKError err), [])) /\
  (forall err, NewSession w = None ->
     DescribeInstances w runningFilter = inr err ->
     run rt w ("." +:+ rest) zoneID invokerID = (Err (SDKError err), [])) /\
  (forall err instances pages, NewSession w = None ->
     runningInstances w = Ok instances ->
     invokerID = ""%string \/ findInvoker invokerID instances = true ->
     ListResourceRecordSetsPages w (listInput zoneID) = (pages, Some err) ->
     run rt w ("." +:+ rest) zoneID invokerID = (Err (SDKError err), [])).
Proof.
  intros Hrest Hzone. apply String.eqb_neq in Hzone.
  pose proof (suffix_accepted_intro rest Hrest) as Hcfg.
  unfold run. rewrite Hcfg, Hzone. split; [|split].
  - now intros err ->.
  - intros err -> Hd. unfold runningInstances. now rewrite Hd.
  - intros err instances pages -> -> Hinv ->.
    assert (negb (String.eqb invokerID "")
            && negb (findInvoker invokerID instances) = false) as ->.
    { destruct Hinv as [-> | ->]; [reflexivity|apply andb_false_r]. }
    reflexivity.
Qed.

Lemma X3_read_errors_propagate_witness :
  run listOrder brokenListWorld ".foo.example.com" "Z1" ""
  = (Err (SDKError throttled), []).
Proof.
  refine (proj2 (proj2
    (X3_read_errors_propagate listOrder brokenListWorld "foo.example.com"
       "Z1" "" _ _)) throttled [instWeb]
       [ {| ListResourceRecordSetsOutput.ResourceRecordSets := [rrOld] |} ]
       _ _ _ _).
  - discriminate.
  - discriminate.
  - reflexivity.
  - reflexivity.
  - left. reflexivity.
  - reflexivity.
Defined.

(** X4. When an invoking instance is named and every instance of that id in
    the answer of the instance query carries a lifecycle class (a spot
    instance) or there is none of that id, [run] returns success without
    reading the zone and without a write. *)
Theorem X4_invoker_not_in_snapshot rt w rest zoneID invokerID resp :
  rest <> ""%string -> zoneID <> ""%string ->
  NewSession w = None ->
  DescribeInstances w runningFilter = inl resp ->
  invokerID <> ""%string ->
  (forall inst, In inst (responseInstances resp) ->
     Instance.InstanceId inst = Some invokerID ->
     Instance.InstanceLifecycle inst <> None) ->
  run rt w ("." +:+ rest) zoneID invokerID = (Ok (), []).
Proof.
  intros Hrest Hzone Hsess Hresp Hinv Hspot.
  apply String.eqb_neq in Hzone. apply String.eqb_neq in Hinv.
  unfold run.
  rewrite (suffix_accepted_intro rest Hrest), Hzone, Hsess,
    (runningInstances_response _ _ Hresp), Hinv.
  destruct (findInvoker invokerID _) eqn:Hfound; [|reflexivity].
  apply findInvoker_iff in Hfound as (inst & Hin & Hid).
  apply List.filter_In in Hin as [Hin Hlife].
  specialize (Hspot inst Hin Hid). unfold noLifecycle in Hlife.
  now destruct (Instance.InstanceLifecycle inst).
Qed.

Lemma X4_invoker_not_in_snapshot_witness :
  run listOrder spotWorld ".foo.example.com" "Z1" "i-07" = (Ok (), []).
Proof.
  apply (X4_invoker_not_in_snapshot listOrder spotWorld "foo.example.com"
           "Z1" "i-07"
           {| DescribeInstancesOutput.Reservations :=
                [ {| Reservation.Instances := [instWeb; instSpot] |} ];
              DescribeInstancesOutput.NextToken := None |}).
  - discriminate.
  - discriminate.
  - reflexivity.
  - reflexivity.
  - discriminate.
  - intros inst [<-|[<-|[]]]; discriminate.
Defined.

(** ** What reaches the zone *)

Section Writes.

Variables (rt : MapOrder) (w : World) (suffix zoneID invokerID : string).

(** The outcome of a run that wrote is the zone's verdict on the batch. *)
Lemma reconcileTail_verdict instances pages input :
  In input (reconcileTail rt w suffix zoneID instances pages).2 ->
  (reconcileTail rt w suffix zoneID instances pages).1 =
  match ChangeResourceRecordSets w input with
  | Some err => Err (SDKError err)
  | None => Ok ()
  end.
Proof.
  unfold reconcileTail.
  destruct (eachInstance suffix instances _) as [[changes toRemove]|err|];
    try (intros []).
  destruct (length changes =? 0)%nat; [intros []|]. cbv zeta.
  destruct (ChangeResourceRecordSets w _) eqn:E;
    intros [<-|[]]; now rewrite E.
Qed.

(** Without a write [run] was not successful, unless it was invoked for an
    instance. *)
Lemma run_unwritten :
  (run rt w suffix zoneID invokerID).2 = [] ->
  (run rt w suffix zoneID invokerID).1 = Ok () ->
  invokerID <> ""%string.
Proof.
  intros Hw Hok ->. revert Hw Hok. unfold run.
  destruct (String.eqb suffix "." || negb (HasPrefix suffix "."));
    [discriminate|].
  destruct (String.eqb zoneID ""); [discriminate|].
  destruct (NewSession w); [discriminate|].
  destruct (runningInstances w) as [instances|err|]; try discriminate.
  cbn [String.eqb negb andb].
  destruct (ListResourceRecordSetsPages w (listInput zoneID)) as [pages [e|]];
    [discriminate|].
  destruct (eachInstance suffix instances _) as [[changes toRemove]|e|];
    try discriminate.
  destruct (length changes =? 0)%nat; [discriminate|]. cbv zeta.
  destruct (ChangeResourceRecordSets w _); discriminate.
Qed.

End Writes.

(** Shape and effect of a write of a run. *)
Lemma run_write_shape rt w suffix zoneID invokerID input :
  In input (run rt w suffix zoneID invokerID).2 ->
  exists upsert rest,
    isUpsert upsert /\
    input = changeInput zoneID (upsert :: rest) /\
    (run rt w suffix zoneID invokerID).2 = [input] /\
    (run rt w suffix zoneID invokerID).1 =
    match ChangeResourceRecordSets w input with
    | Some err => Err (SDKError err)
    | None => Ok ()
    end.
Proof.
  intros Hin. pose proof Hin as Hsub. apply run_submitted in Hsub
    as (instances & pages & changes & toRemove & Hrec & Hloop & Hne & -> & Hone).
  rewrite (run_reconciles rt _ _ _ _ _ _ Hrec) in Hin |- *.
  rewrite (run_reconciles rt _ _ _ _ _ _ Hrec) in Hone.
  apply reconcileTail_verdict in Hin.
  destruct changes as [|upsert changes]; [contradiction|].
  exists upsert, (changes ++ (rangeMap rt toRemove).*2).
  split; [|split; [reflexivity|split; assumption]].
  apply eachInstance_spec in Hloop as [Hch _]. cbn [app] in Hch.
  apply (upsert_in_isUpsert suffix instances). rewrite <- Hch. now left.
Qed.

(** X6. [run] sends at most one batch to the zone.  A batch it sends goes to
    the configured zone under the fixed comment and begins with an UPSERT,
    and the outcome of such a run is the zone's verdict on that batch:
    success, or the error the zone returned.  A run that ends in an error of
    its own or in a panic has sent nothing. *)
Theorem X6_single_write rt w suffix zoneID invokerID :
  (run rt w suffix zoneID invokerID).2 = [] \/
  exists upsert rest,
    isUpsert upsert /\
    (run rt w suffix zoneID invokerID).2 = [changeInput zoneID (upsert :: rest)] /\
    (run rt w suffix zoneID invokerID).1 =
    match ChangeResourceRecordSets w (changeInput zoneID (upsert :: rest)) with
    | Some err => Err (SDKError err)
    | None => Ok ()
    end.
Proof.
  destruct (run rt w suffix zoneID invokerID).2 as [|input more] eqn:Hw;
    [now left|right].
  destruct (run_write_shape rt w suffix zoneID invokerID input)
    as (upsert & rest & HU & -> & Hone & Hverdict).
  { rewrite Hw. now left. }
  exists upsert, rest. rewrite <- Hw. auto.
Qed.

(** ** Candidates and stale records *)

Section LastRecord.

Variable suffix : string.



End LastRecord.





(** ** Labels *)

Section Labels.

Lemma nameTag_absent tags :
  Forall (fun t => exists key, Tag.Key t = Some key /\ key <> "Name"%string)
    tags ->
  nameTag tags = Ok ""%string.
Proof.
  intros H. induction H as [|t tags (key & Ht & Hne) _ IH]; cbn [nameTag].
  - reflexivity.
  - rewrite Ht. apply String.eqb_neq in Hne. now rewrite Hne.
Qed.

Lemma list_ascii_append (a b : string) :
  list_ascii_of_string (a +:+ b)
  = list_ascii_of_string a ++ list_ascii_of_string b.
Proof.
  induction a as [|c a IH]; [reflexivity|].
  change (String c a +:+ b) with (String c (a +:+ b)). cbn. now rewrite IH.
Qed.

Lemma valid_bytes s :
  valid s = negb (String.eqb s "") && forallb labelChar (list_ascii_of_string s).
Proof.
  unfold valid. rewrite valid_loop_runes. now destruct (String.eqb s "").
Qed.

End Labels.

(** X9. An instance whose tags hold no "Name" key, or whose label is not
    valid, is passed over: its iteration adds no change and leaves every
    candidate in place, whatever public hostname or address it has. *)
Theorem X9_unlabelled_instance_ignored suffix inst :
  Forall (fun t => exists key, Tag.Key t = Some key /\ key <> "Name"%string)
    (Instance.Tags inst) \/
  (exists label, nameTag (Instance.Tags inst) = Ok label /\
     valid label = false) ->
  upsertFor suffix inst = None /\
  forall st, instanceStep suffix st inst = Ok st.
Proof.
  intros H.
  assert (Hl : exists label, nameTag (Instance.Tags inst) = Ok label /\
                 valid label = false).
  { destruct H as [H|H]; [|exact H]. exists ""%string.
    split; [now apply nameTag_absent|reflexivity]. }
  destruct Hl as (label & EN & Hv).
  assert (HU : upsertFor suffix inst = None)
    by (unfold upsertFor; now rewrite EN, Hv).
  split; [exact HU|]. intros [changes toRemove].
  now rewrite instanceStep_spec, EN, HU.
Qed.

Lemma X9_unlabelled_instance_ignored_witness :
  upsertFor ".foo.example.com" instDotted = None /\
  forall st, instanceStep ".foo.example.com" st instDotted = Ok st.
Proof.
  apply (X9_unlabelled_instance_ignored ".foo.example.com" instDotted).
  right. exists "a.b"%string. split; reflexivity.
Defined.

(** X10. The label of an instance is the value of its first tag with the
    key "Name": tags in front of it only need a key, their values are not
    looked at, and nothing behind it is looked at, be it a second "Name"
    tag or a tag without key. *)
Theorem X10_first_name_tag_wins before tag after value :
  Forall (fun t => exists key, Tag.Key t = Some key /\ key <> "Name"%string)
    before ->
  Tag.Key tag = Some "Name"%string ->
  Tag.Value tag = Some value ->
  nameTag (before ++ tag :: after) = Ok value.
Proof.
  intros Hb Hk Hv. induction Hb as [|t before (key & Ht & Hne) _ IH];
    cbn [app nameTag].
  - now rewrite Hk, Hv.
  - rewrite Ht. apply String.eqb_neq in Hne. now rewrite Hne.
Qed.

Lemma X10_first_name_tag_wins_witness :
  nameTag (Instance.Tags instTwoNames) = Ok "web"%string.
Proof.
  apply (X10_first_name_tag_wins
           [ {| Tag.Key := Some "Role"%string; Tag.Value := None |} ]
           (nameIs "web") [nameIs "other"] "web").
  - apply List.Forall_cons; [|apply List.Forall_nil].
    exists "Role"%string. split; [reflexivity|discriminate].
  - reflexivity.
  - reflexivity.
Defined.

(** X11. Validity goes by the single bytes of a label: joining two
    non-empty strings gives a valid label exactly when both are valid, no
    byte sequence across the seam changes that. *)
Theorem X11_valid_append a b :
  a <> ""%string -> b <> ""%string ->
  valid (a +:+ b) = valid a && valid b.
Proof.
  intros Ha Hb. rewrite !valid_bytes, list_ascii_append, forallb_app.
  apply String.eqb_neq in Ha, Hb. rewrite Ha, Hb.
  assert (String.eqb (a +:+ b) "" = false) as ->.
  { apply String.eqb_neq. destruct a; [discriminate|].
    change (String a a0 +:+ b) with (String a (a0 +:+ b)). discriminate. }
  reflexivity.
Qed.

Lemma X11_valid_append_witness :
  valid ("web-" +:+ "01") = valid "web-" && valid "01".
Proof. apply (X11_valid_append "web-" "01"); discriminate. Defined.

(** ** Entry points *)

Section Entry.

Lemma run_invoked_write rt w suffix zoneID invokerID input :
  In input (run rt w suffix zoneID invokerID).2 ->
  invokerID <> ""%string ->
  exists resp inst,
    DescribeInstances w runningFilter = inl resp /\
    In inst (responseInstances resp) /\
    Instance.InstanceId inst = Some invokerID /\
    Instance.InstanceLifecycle inst = None.
Proof.
  intros Hin Hinv.
  apply run_submitted in Hin
    as (instances & pages & changes & toRemove & Hrec & _).
  destruct Hrec as (_ & _ & _ & Hrun & Hfound & _).
  apply String.eqb_neq in Hinv. rewrite Hinv in Hfound. cbn [orb] in Hfound.
  apply findInvoker_iff in Hfound as (inst & Hi & Hid).
  apply runningInstances_inv in Hrun as (resp & Hresp & ->).
  apply List.filter_In in Hi as [Hi Hlife].
  exists resp, inst. repeat split; try assumption.
  unfold noLifecycle in Hlife.
  now destruct (Instance.InstanceLifecycle inst).
Qed.

Lemma handler_relevant rt w p evt d :
  CloudWatchEvent.Source evt = "aws.ec2"%string ->
  Unmarshal p (CloudWatchEvent.Detail evt) = inl d ->
  State d = "running"%string -> ID d <> ""%string ->
  handler rt w p evt =
  match run rt w (Getenv p "SUFFIX") (Getenv p "ZONE") (ID d) with
  | (Ok _, writes) => (Handled, writes)
  | (Err err, writes) => (Failed (RunError err), writes)
  | (Panic, writes) => (Crashed, writes)
  end.
Proof.
  intros Hs Hu Hst Hid. unfold handler. rewrite Hs, Hu, Hst.
  apply String.eqb_neq in Hid. now rewrite Hid.
Qed.

End Entry.

(** X5. A Lambda invocation writes to the zone only for an event of source
    "aws.ec2" whose detail decodes to state "running" and a non-empty
    instance id, and only if the instance query lists an instance of that
    id without lifecycle class. *)
Theorem X5_handler_writes_for_listed_instance rt w p evt input :
  In input (handler rt w p evt).2 ->
  CloudWatchEvent.Source evt = "aws.ec2"%string /\
  exists d resp inst,
    Unmarshal p (CloudWatchEvent.Detail evt) = inl d /\
    State d = "running"%string /\ ID d <> ""%string /\
    DescribeInstances w runningFilter = inl resp /\
    In inst (responseInstances resp) /\
    Instance.InstanceId inst = Some (ID d) /\
    Instance.InstanceLifecycle inst = None.
Proof.
  unfold handler.
  destruct (String.eqb_spec (CloudWatchEvent.Source evt) "aws.ec2")
    as [Hs|_]; cbn [negb]; [|intros []].
  destruct (Unmarshal p (CloudWatchEvent.Detail evt)) as [d|err] eqn:Hu;
    [|intros []].
  destruct (String.eqb_spec (State d) "running") as [Hst|_]; cbn [negb];
    [|intros []].
  destruct (String.eqb_spec (ID d) "") as [_|Hid]; [intros []|].
  intros Hin.
  assert (Hrun : In input
            (run rt w (Getenv p "SUFFIX") (Getenv p "ZONE") (ID d)).2).
  { destruct (run rt w (Getenv p "SUFFIX") (Getenv p "ZONE") (ID d))
      as [[u|e|] writes]; exact Hin. }
  destruct (run_invoked_write _ _ _ _ _ _ Hrun Hid)
    as (resp & inst & ? & ? & ? & ?).
  split; [assumption|]. exists d, resp, inst. auto 10.
Qed.

Lemma X5_handler_writes_for_listed_instance_witness :
  CloudWatchEvent.Source webRunning = "aws.ec2"%string /\
  exists d resp inst,
    Unmarshal lambdaProcess (CloudWatchEvent.Detail webRunning) = inl d /\
    State d = "running"%string /\ ID d <> ""%string /\
    DescribeInstances staleWorld runningFilter = inl resp /\
    In inst (responseInstances resp) /\
    Instance.InstanceId inst = Some (ID d) /\
    Instance.InstanceLifecycle inst = None.
Proof.
  apply (X5_handler_writes_for_listed_instance listOrder staleWorld
           lambdaProcess webRunning
           (changeInput "Z1"
              [upsertChange "web.foo.example.com" "A" "5.6.7.8";
               deleteChange "old.foo.example.com" rrOld])).
  vm_compute. left. reflexivity.
Defined.

(** X12. Started from the command line, [main] returns normally only after
    the zone has accepted the one batch of the run; without a batch there
    is no success. *)
Theorem X12_manual_success_is_a_write rt w p writes :
  (negb (String.eqb (Getenv p "LAMBDA_TASK_ROOT") "")
   && negb (String.eqb (Getenv p "AWS_EXECUTION_ENV") "")) = false ->
  main rt w p = Returned writes ->
  exists upsert rest,
    isUpsert upsert /\
    writes = [changeInput (Zone (Parse p)) (upsert :: rest)] /\
    ChangeResourceRecordSets w
      (changeInput (Zone (Parse p)) (upsert :: rest)) = None.
Proof.
  intros Hcli. unfold main. rewrite Hcli.
  pose proof (run_write_shape rt w (Suffix (Parse p)) (Zone (Parse p)) "")
    as Hshape.
  pose proof (run_unwritten rt w (Suffix (Parse p)) (Zone (Parse p)) "")
    as Hnone.
  destruct (run rt w (Suffix (Parse p)) (Zone (Parse p)) "")
    as [[[]|e|] ws]; try discriminate.
  intros [= <-]. cbn [fst snd] in *.
  destruct ws as [|input more]; [now elim (Hnone eq_refl eq_refl)|].
  destruct (Hshape input ltac:(now left))
    as (upsert & rest & HU & -> & Hone & Hv).
  exists upsert, rest. repeat split; try assumption.
  destruct (ChangeResourceRecordSets w _); [discriminate|reflexivity].
Qed.

Lemma X12_manual_success_is_a_write_witness :
  exists upsert rest,
    isUpsert upsert /\
    [changeInput "Z1"
       [upsertChange "web.foo.example.com" "A" "5.6.7.8";
        deleteChange "old.foo.example.com" rrOld]]
    = [changeInput (Zone (Parse cliProcess)) (upsert :: rest)] /\
    ChangeResourceRecordSets staleWorld
      (changeInput (Zone (Parse cliProcess)) (upsert :: rest)) = None.
Proof.
  apply (X12_manual_success_is_a_write listOrder staleWorld cliProcess).
  - reflexivity.
  - vm_compute. reflexivity.
Defined.

(** X13. [os.Getenv] yields the empty string for a variable that is not
    set, so a Lambda without SUFFIX fails every relevant event with the
    "invalid suffix" error and one with SUFFIX but without ZONE fails it
    with the "empty zone id" error, both before any call to AWS. *)
Theorem X13_unconfigured_lambda_fails rt w p evt d :
  CloudWatchEvent.Source evt = "aws.ec2"%string ->
  Unmarshal p (CloudWatchEvent.Detail evt) = inl d ->
  State d = "running"%string -> ID d <> ""%string ->
  (Getenv p "SUFFIX" = ""%string ->
   handler rt w p evt = (Failed (RunError (ErrInvalidSuffix "")), [])) /\
  (forall rest, rest <> ""%string ->
   Getenv p "SUFFIX" = "." +:+ rest -> Getenv p "ZONE" = ""%string ->
   handler rt w p evt = (Failed (RunError ErrEmptyZone), [])).
Proof.
  intros Hs Hu Hst Hid.
  rewrite (handler_relevant rt w p evt d Hs Hu Hst Hid). split.
  - intros ->. reflexivity.
  - intros rest Hrest -> ->. unfold run.
    now rewrite (suffix_accepted_intro rest Hrest).
Qed.

Lemma X13_unconfigured_lambda_fails_witness :
  handler listOrder staleWorld
    {| Getenv := fun _ => ""%string; Parse := Parse lambdaProcess;
       Unmarshal := Unmarshal lambdaProcess |} webRunning
  = (Failed (RunError (ErrInvalidSuffix "")), []).
Proof.
  refine (proj1
    (X13_unconfigured_lambda_fails listOrder staleWorld
       {| Getenv := fun _ => ""%string; Parse := Parse lambdaProcess;
          Unmarshal := Unmarshal lambdaProcess |} webRunning
       {| ID := "i-01"; State := "running" |} _ _ _ _) _).
  - reflexivity.
  - reflexivity.
  - reflexivity.
  - discriminate.
  - reflexivity.
Defined.

(** ** Where an UPSERT comes from *)

(** X14. Every UPSERT of a submitted batch is the record of an instance
    that the instance query listed without lifecycle class: it is named by
    that instance's valid label and the suffix and points to its public
    hostname (CNAME) or, for want of one, to its public address (A).
    Nothing is upserted for a spot instance or out of thin air. *)
Theorem X14_upsert_provenance rt w suffix zoneID invokerID input upsert :
  In input (run rt w suffix zoneID invokerID).2 ->
  In upsert (batchOf input) -> isUpsert upsert ->
  exists resp inst label kind target,
    DescribeInstances w runningFilter = inl resp /\
    In inst (responseInstances resp) /\
    Instance.InstanceLifecycle inst = None /\
    nameTag (Instance.Tags inst) = Ok label /\ valid label = true /\
    desiredRecord inst = Some (kind, target) /\
    upsert = upsertChange (label +:+ suffix) kind target.
Proof.
  intros Hin Hu HU.
  apply run_submitted in Hin
    as (instances & pages & changes & toRemove & Hrec & Hloop & _ & -> & _).
  destruct Hrec as (_ & _ & _ & Hrun & _).
  apply runningInstances_inv in Hrun as (resp & Hresp & ->).
  unfold batchOf in Hu. cbn in Hu. apply in_app_or in Hu as [Hu|Hu].
  - pose proof Hloop as Hl. apply eachInstance_spec in Hl as [-> _].
    cbn [app] in Hu.
    apply list_elem_of_In, list_elem_of_omap in Hu as (inst & Hi & Hfor).
    apply list_elem_of_In, List.filter_In in Hi as [Hi Hlife].
    apply upsertFor_name in Hfor as (label & kind & target & ? & ? & ? & ?).
    exists resp, inst, label, kind, target. repeat split; try assumption.
    unfold noLifecycle in Hlife.
    now destruct (Instance.InstanceLifecycle inst).
  - apply rangeMap_elem in Hu as [name Hl].
    destruct (leftover_candidates _ _ _ _ _ _ _ Hloop Hl)
      as (_ & rr & _ & _ & _ & ->).
    discriminate HU.
Qed.

Lemma X14_upsert_provenance_witness :
  exists resp inst label kind target,
    DescribeInstances spotWorld runningFilter = inl resp /\
    In inst (responseInstances resp) /\
    Instance.InstanceLifecycle inst = None /\
    nameTag (Instance.Tags inst) = Ok label /\ valid label = true /\
    desiredRecord inst = Some (kind, target) /\
    upsertChange "web.foo.example.com" "A" "5.6.7.8"
    = upsertChange (label +:+ ".foo.example.com") kind target.
Proof.
  apply (X14_upsert_provenance listOrder spotWorld ".foo.example.com" "Z1" ""
           (changeInput "Z1"
              [upsertChange "web.foo.example.com" "A" "5.6.7.8";
               deleteChange "old.foo.example.com" rrOld])).
  - vm_compute. left. reflexivity.
  - simpl. left. reflexivity.
  - reflexivity.
Defined.
